(** * Weather2Go: the weather-data resolution of [app.py]

    A shallow embedding of [get_weather_data] (app.py, lines 102-233): the
    city table and its lookup, the three chained requests to the weather
    service, the extraction of the forecast fields, the best-effort grid-data
    enrichment, the wind-chill formula and the record that is returned.

    Modelling choices.
    - Text: a Python [str] is a [string] whose characters are the code
      points 0 to 255, and the [str] methods ([lower], [strip], [split],
      [title], [replace], [join]) are written out on it.  White space and
      [lower] are those of Python on all these code points; [title], which
      the program applies to the keys of its city table only, is written
      for the letters a to z.  Code points above 255 are not in the type.
    - Numbers: Python's [int] and [float] are exact rationals ([Q]); a JSON
      number is the value Python holds after parsing.  [float] of a number
      raises the overflow error of Python; rounding and the floats that are
      not finite are outside the model: [float] of a string does not parse
      their spellings ([spells_non_finite]), and a statement that needs a
      conversion to be exact carries the bound [converts_exactly].  The one
      transcendental operation of the program, [wind_speed ** 0.16], is the
      real power function, so the wind chill is a real number.
    - Parsed JSON is an inductive type; a JSON object is an association list
      read by first match.
    - An exception is a value of [exn]; code that may raise returns a
      [result].  The inner [try] block, which assigns three local variables
      and may stop half-way, is a state-and-exception computation.
    - The network is a function from the requested URL to what
      [requests.get] does with it; the Streamlit calls [st.error] and
      [st.write] are collected in a log. *)

From Stdlib Require Import Bool Arith ZArith QArith Qreals Reals Lra Lia.
From Stdlib Require Import Ascii String List Permutation Sorted.
From Stdlib Require Import DecimalString DecimalNat.
Import ListNotations.

Local Open Scope string_scope.

(** ** Python [str] methods *)

Module PyStr.

(** [str.isspace] on one character: tab, line feed, vertical tab, form
    feed, carriage return, the four separators 28-31, the space, the next
    line control 133 and the no-break space 160. *)
Definition is_space (c : ascii) : bool :=
  let n := nat_of_ascii c in
  (((9 <=? n) && (n <=? 13)) || ((28 <=? n) && (n <=? 32))
   || (n =? 133) || (n =? 160))%nat.

Definition is_upper (c : ascii) : bool :=
  let n := nat_of_ascii c in ((65 <=? n) && (n <=? 90))%nat.

Definition is_lower (c : ascii) : bool :=
  let n := nat_of_ascii c in ((97 <=? n) && (n <=? 122))%nat.

(** The upper-case letters above 127: 192 to 222 without the
    multiplication sign 215. *)
Definition is_upper_latin (c : ascii) : bool :=
  let n := nat_of_ascii c in
  ((192 <=? n) && (n <=? 222) && negb (n =? 215))%nat.

Definition lower_char (c : ascii) : ascii :=
  if is_upper c || is_upper_latin c
  then ascii_of_nat (nat_of_ascii c + 32)%nat
  else c.

Definition upper_char (c : ascii) : ascii :=
  if is_lower c then ascii_of_nat (nat_of_ascii c - 32)%nat else c.

(** [s.lower()] *)
Fixpoint lower (s : string) : string :=
  match s with
  | EmptyString => EmptyString
  | String c s' => String (lower_char c) (lower s')
  end.

(** [s.lstrip()], [s.rstrip()] and [s.strip()] *)
Fixpoint lstrip (s : string) : string :=
  match s with
  | EmptyString => EmptyString
  | String c s' => if is_space c then lstrip s' else s
  end.

Definition is_empty (s : string) : bool :=
  match s with EmptyString => true | String _ _ => false end.

Fixpoint rstrip (s : string) : string :=
  match s with
  | EmptyString => EmptyString
  | String c s' =>
      let r := rstrip s' in
      if is_space c && is_empty r then EmptyString else String c r
  end.

Definition strip (s : string) : string := rstrip (lstrip s).

(** [s.title()] on text whose letters are a to z and A to Z: a letter that
    follows a character that is not a letter is upper-cased, one that
    follows a letter is lower-cased. *)
Fixpoint title_from (previous_is_cased : bool) (s : string) : string :=
  match s with
  | EmptyString => EmptyString
  | String c s' =>
      if is_lower c then
        String (if previous_is_cased then c else upper_char c)
               (title_from true s')
      else if is_upper c then
        String (if previous_is_cased then lower_char c else c)
               (title_from true s')
      else String c (title_from false s')
  end.

Definition title (s : string) : string := title_from false s.

(** [s.split()] with no argument: the maximal runs of characters that are
    not white space. *)
Definition starts_with_space (s : string) : bool :=
  match s with
  | EmptyString => true
  | String c _ => is_space c
  end.

Fixpoint split (s : string) : list string :=
  match s with
  | EmptyString => []
  | String c s' =>
      if is_space c then split s'
      else if starts_with_space s' then String c EmptyString :: split s'
      else match split s' with
           | t :: ts => String c t :: ts
           | [] => [String c EmptyString]
           end
  end.

(** [s.replace(old, new)] for a non-empty [old]: every occurrence, left to
    right, without overlap.  [skip] counts the characters of the occurrence
    just replaced that are still to be dropped. *)
Fixpoint replace_from (old new : string) (skip : nat) (s : string) : string :=
  match s with
  | EmptyString => EmptyString
  | String c s' =>
      match skip with
      | S k => replace_from old new k s'
      | O =>
          if prefix old s
          then new ++ replace_from old new (String.length old - 1)%nat s'
          else String c (replace_from old new 0%nat s')
      end
  end.

Definition replace (old new s : string) : string := replace_from old new 0%nat s.

(** [sub in s] *)
Fixpoint contains (sub s : string) : bool :=
  prefix sub s ||
  match s with
  | EmptyString => false
  | String _ s' => contains sub s'
  end.

(** [sep.join(l)] *)
Definition join (sep : string) (l : list string) : string :=
  String.concat sep l.

(** [sorted(l)] on strings: the order is the lexicographic order of the
    character codes.  The sort is an insertion sort; on a list without
    duplicates every sort gives the same result. *)
Fixpoint insert (x : string) (l : list string) : list string :=
  match l with
  | [] => [x]
  | y :: l' => if String.leb x y then x :: l else y :: insert x l'
  end.

Fixpoint sorted (l : list string) : list string :=
  match l with
  | [] => []
  | x :: l' => insert x (sorted l')
  end.

End PyStr.

(** ** Numbers *)

Module PyNum.

Definition digit_of (c : ascii) : option Z :=
  let n := nat_of_ascii c in
  if ((48 <=? n) && (n <=? 57))%nat then Some (Z.of_nat (n - 48)) else None.

(** The rest of a [digitpart ::= digit (["_"] digit)*] whose first digits
    have value [acc]; [cnt] counts the digits read.  Returns the value, the
    count and what follows. *)
Fixpoint digits_tail (acc : Z) (cnt : nat) (s : string) : Z * nat * string :=
  match s with
  | EmptyString => (acc, cnt, s)
  | String c s' =>
      match digit_of c with
      | Some d => digits_tail (10 * acc + d)%Z (S cnt) s'
      | None =>
          if Ascii.eqb c "_" then
            match s' with
            | String c2 s'' =>
                match digit_of c2 with
                | Some d => digits_tail (10 * acc + d)%Z (S cnt) s''
                | None => (acc, cnt, s)
                end
            | EmptyString => (acc, cnt, s)
            end
          else (acc, cnt, s)
      end
  end.

(** A [digitpart] continuing the value [acc]: at least one digit. *)
Definition digitpart (acc : Z) (s : string) : option (Z * nat * string) :=
  match s with
  | String c s' =>
      match digit_of c with
      | Some d => Some (digits_tail (10 * acc + d)%Z 1%nat s')
      | None => None
      end
  | EmptyString => None
  end.

(** [sign ::= "+" | "-"], optional; [true] is a minus. *)
Definition sign (s : string) : bool * string :=
  match s with
  | String c s' =>
      if Ascii.eqb c "-" then (true, s')
      else if Ascii.eqb c "+" then (false, s')
      else (false, s)
  | EmptyString => (false, s)
  end.

(** [number ::= [digitpart] "." digitpart | digitpart ["."]]: the mantissa
    as an integer, the number of digits after the point, and the rest. *)
Definition number (s : string) : option (Z * nat * string) :=
  match s with
  | String "."%char s' => digitpart 0 s'
  | _ =>
      match digitpart 0 s with
      | Some (i, _, String "."%char r) =>
          match digitpart i r with
          | Some res => Some res
          | None => Some (i, O, r)
          end
      | Some (i, _, r) => Some (i, O, r)
      | None => None
      end
  end.

(** [exponent ::= ("e" | "E") [sign] digitpart], optional. *)
Definition exponent (s : string) : option (Z * string) :=
  match s with
  | String c s' =>
      if Ascii.eqb c "e" || Ascii.eqb c "E" then
        let (neg, r) := sign s' in
        match digitpart 0 r with
        | Some (e, _, r') => Some (if neg then (- e)%Z else e, r')
        | None => None
        end
      else Some (0%Z, s)
  | EmptyString => Some (0%Z, s)
  end.

(** The white space that [float] strips from a [str]: tab to carriage
    return, the space, the next line control 133 and the no-break space
    160.  The separators 28-31, which [str.strip] removes, are not among
    them: [float] rejects text that carries one. *)
Definition is_space (c : ascii) : bool :=
  let n := nat_of_ascii c in
  (((9 <=? n) && (n <=? 13)) || (n =? 32) || (n =? 133) || (n =? 160))%nat.

Fixpoint lstrip (s : string) : string :=
  match s with
  | EmptyString => EmptyString
  | String c s' => if is_space c then lstrip s' else s
  end.

Fixpoint rstrip (s : string) : string :=
  match s with
  | EmptyString => EmptyString
  | String c s' =>
      let r := rstrip s' in
      if is_space c && PyStr.is_empty r then EmptyString else String c r
  end.

Definition strip (s : string) : string := rstrip (lstrip s).

(** [m * 10 ^ e] as a rational. *)
Definition scale10 (m e : Z) : Q :=
  if (0 <=? e)%Z then Qmake (m * 10 ^ e)%Z 1
  else Qmake m (Z.to_pos (10 ^ (- e))%Z).

(** [float(s)] for a [str]: the decimal grammar of the language reference
    after the white space of [is_space] is stripped.  [None] is a [ValueError].  The
    spellings [inf], [infinity] and [nan] denote floats that the number
    model does not have; they are not parsed. *)
Definition float_of_string (s : string) : option Q :=
  let (neg, r0) := sign (strip s) in
  match number r0 with
  | Some (m, frac, r1) =>
      match exponent r1 with
      | Some (e, EmptyString) =>
          Some (scale10 (if neg then (- m)%Z else m) (e - Z.of_nat frac)%Z)
      | _ => None
      end
  | None => None
  end.

(** Truth value of a number: non-zero. *)
Definition nonzero (q : Q) : bool := negb (Qnum q =? 0)%Z.

(** [float(n)] of an integer raises an overflow error from this magnitude
    on: the least one that rounds to 2 ^ 1024. *)
Definition overflow_bound : Q := inject_Z (2 ^ 1024 - 2 ^ 970).

Definition overflows (q : Q) : bool :=
  Qle_bool overflow_bound q || Qle_bool q (- overflow_bound).

End PyNum.

(** ** Exceptions *)

(** The key a [KeyError] carries: a string, or the integer of [d[0]] on a
    dictionary. *)
Inductive key : Type :=
| KStr (s : string)
| KInt (i : Z).

Inductive exn : Type :=
| Timeout            (* requests.exceptions.Timeout *)
| ConnectionError    (* requests.exceptions.ConnectionError *)
| RequestException   (* any other exception of requests.get *)
| JSONDecodeError    (* response.json() on a body that is not JSON *)
| KeyError (k : key)
| IndexError
| TypeError
| ValueError
| AttributeError
| OverflowError.     (* float() of an integer too large for a float *)

Inductive result (A : Type) : Type :=
| Ok (a : A)
| Raise (e : exn).

Arguments Ok {A} a.
Arguments Raise {A} e.

Definition bind {A B : Type} (r : result A) (k : A -> result B) : result B :=
  match r with
  | Ok a => k a
  | Raise e => Raise e
  end.

Notation "x <- e ;; k" := (bind e (fun x => k))
  (at level 61, e at next level, right associativity).

(** ** Parsed JSON and the Python operations used on it *)

#[warnings="-register-all"] Inductive json : Type :=
| JNull
| JBool (b : bool)
| JNum (q : Q)
| JStr (s : string)
| JList (l : list json)
| JDict (d : list (string * json)).

Module Py.

Fixpoint lookup {A : Type} (k : string) (d : list (string * A)) : option A :=
  match d with
  | [] => None
  | (k', v) :: d' => if String.eqb k k' then Some v else lookup k d'
  end.

(** [v[k]] for a string [k] *)
Definition getitem (v : json) (k : string) : result json :=
  match v with
  | JDict d =>
      match lookup k d with
      | Some x => Ok x
      | None => Raise (KeyError (KStr k))
      end
  | _ => Raise TypeError
  end.

(** [v[0]] *)
Definition getitem0 (v : json) : result json :=
  match v with
  | JList (x :: _) => Ok x
  | JList [] => Raise IndexError
  | JStr (String c _) => Ok (JStr (String c EmptyString))
  | JStr EmptyString => Raise IndexError
  | JDict _ => Raise (KeyError (KInt 0))
  | _ => Raise TypeError
  end.

(** [v.get(k, default)]: only a dictionary has the method. *)
Definition get (v : json) (k : string) (default : json) : result json :=
  match v with
  | JDict d =>
      match lookup k d with
      | Some x => Ok x
      | None => Ok default
      end
  | _ => Raise AttributeError
  end.

(** [k in v] for a string [k] *)
Definition contains (k : string) (v : json) : result bool :=
  match v with
  | JDict d =>
      Ok (match lookup k d with Some _ => true | None => false end)
  | JList l =>
      Ok (existsb (fun x => match x with
                            | JStr s => String.eqb k s
                            | _ => false
                            end) l)
  | JStr s => Ok (PyStr.contains k s)
  | _ => Raise TypeError
  end.

(** The truth value of [v] in a condition *)
Definition truthy (v : json) : bool :=
  match v with
  | JNull => false
  | JBool b => b
  | JNum q => PyNum.nonzero q
  | JStr s => negb (PyStr.is_empty s)
  | JList l => match l with [] => false | _ :: _ => true end
  | JDict d => match d with [] => false | _ :: _ => true end
  end.

(** [float(v)] *)
Definition float (v : json) : result Q :=
  match v with
  | JNum q => if PyNum.overflows q then Raise OverflowError else Ok q
  | JBool b => Ok (if b then 1%Q else 0%Q)
  | JStr s =>
      match PyNum.float_of_string s with
      | Some q => Ok q
      | None => Raise ValueError
      end
  | _ => Raise TypeError
  end.

(** [v.split()]: only a [str] has the method. *)
Definition split (v : json) : result (list string) :=
  match v with
  | JStr s => Ok (PyStr.split s)
  | _ => Raise AttributeError
  end.

(** [l[0]] on the list that [split] returns *)
Definition first (l : list string) : result string :=
  match l with
  | t :: _ => Ok t
  | [] => Raise IndexError
  end.

(** [v.replace(old, new)]: only a [str] has the method. *)
Definition replace (v : json) (old new : string) : result json :=
  match v with
  | JStr s => Ok (JStr (PyStr.replace old new s))
  | _ => Raise AttributeError
  end.

(** [v != s] for a string literal [s] *)
Definition differs (v : json) (s : string) : bool :=
  match v with
  | JStr s' => negb (String.eqb s' s)
  | _ => true
  end.

End Py.

(** ** The weather service *)

(** What is passed to [requests.get]: the points URL, built from the
    coordinate, or a value taken from a response. *)
Inductive url : Type :=
| points_url (lat lon : Q)  (* f"https://api.weather.gov/points/{lat},{lon}" *)
| url_of (v : json).

Record response : Type := mkResponse {
  status_code : Z;
  body : option json   (* [None]: the body is not JSON *)
}.

(** [requests.get(u, timeout=10)] either raises or returns a response. *)
Inductive request_error : Type :=
| ReqTimeout
| ReqConnectionError
| ReqOther.

Definition network : Type := url -> request_error + response.

Definition exn_of_request_error (e : request_error) : exn :=
  match e with
  | ReqTimeout => Timeout
  | ReqConnectionError => ConnectionError
  | ReqOther => RequestException
  end.

Definition requests_get (net : network) (u : url) : result response :=
  match net u with
  | inl e => Raise (exn_of_request_error e)
  | inr r => Ok r
  end.

(** [r.json()] *)
Definition response_json (r : response) : result json :=
  match body r with
  | Some v => Ok v
  | None => Raise JSONDecodeError
  end.

(** ** The user interface *)

(** The text of an [st.error] call, named after its f-string with the
    interpolated values as arguments. *)
Inductive message : Type :=
| city_not_found (city : string)
    (* f"City '{city}' not found in database. Available cities:" *)
| location_error (code : Z)
    (* f"Error getting location data: {points_response.status_code}" *)
| forecast_error (code : Z)
    (* f"Error getting forecast data: {forecast_response.status_code}" *)
| timed_out
    (* "Request timed out. Please check your internet connection ..." *)
| connection_error
    (* "Connection error. Please check your internet connection." *)
| missing_field (k : key)
    (* f"Data parsing error: Missing field {e}" *)
| fetch_error (e : exn).
    (* f"Error fetching weather data: {str(e)}" *)

Inductive ui : Type :=
| st_error (m : message)
| st_write (text : string).

(** ** [get_weather_data] *)

Local Open Scope Q_scope.

(** Lines 106-122: the city table. *)
Definition michigan_cities : list (string * (Q * Q)) :=
  [ ("detroit", (42.3314, -83.0458));
    ("ann arbor", (42.2808, -83.7430));
    ("grand rapids", (42.9633, -85.6789));
    ("lansing", (42.7335, -84.5555));
    ("flint", (43.0125, -83.6875));
    ("dearborn", (42.3222, -83.1763));
    ("sterling heights", (42.5800, -83.0300));
    ("troy", (42.5801, -83.1481));
    ("warren", (42.4805, -83.0267));
    ("livonia", (42.4172, -83.3711));
    ("kalamazoo", (42.2917, -85.5872));
    ("saginaw", (43.4209, -83.9545));
    ("muskegon", (43.2343, -86.2474));
    ("jackson", (42.2411, -84.4054));
    ("battle creek", (42.3202, -85.1832)) ].

(** Line 124: [city.lower().strip()] *)
Definition city_lower (city : string) : string :=
  PyStr.strip (PyStr.lower city).

(** Line 128: [", ".join([c.title() for c in sorted(michigan_cities.keys())])] *)
Definition available_names : list string :=
  map PyStr.title (PyStr.sorted (map fst michigan_cities)).

Definition available : string := PyStr.join ", " available_names.

(** The dictionary that is returned (lines 209-220). *)
Record observation : Type := mkObservation {
  City : string;
  Temperature : Q;          (* 'Temperature(F)' *)
  Wind_Chill : R;           (* 'Wind_Chill(F)' *)
  Humidity : Q;             (* 'Humidity(%)' *)
  Pressure : Q;             (* 'Pressure(in)' *)
  Visibility : Q;           (* 'Visibility(mi)' *)
  Wind_Direction : json;
  Wind_Speed : Q;           (* 'Wind_Speed(mph)' *)
  Precipitation : Q;        (* 'Precipitation(in)' *)
  Sunrise_Sunset : string
}.

(** Lines 200-204: the wind chill. *)
Definition wind_chill_formula (temp wind_speed : R) : R :=
  (35.74 + (0.6215 * temp) - (35.75 * Rpower wind_speed 0.16)
   + (0.4275 * temp * Rpower wind_speed 0.16))%R.

Definition wind_chill (temp wind_speed : Q) : R :=
  if Qle_bool temp 50 && negb (Qle_bool wind_speed 3)
  then wind_chill_formula (Q2R temp) (Q2R wind_speed)
  else Q2R temp.

(** *** The grid-data block (lines 169-198) *)

(** The three local variables the inner [try] assigns. *)
Record grid_vars : Type := mkGridVars {
  humidity : Q;
  visibility : Q;
  precipitation : Q
}.

(** Lines 170-172 *)
Definition default_grid_vars : grid_vars :=
  {| humidity := 50; visibility := 10.0; precipitation := 0.0 |}.

(** A statement sequence over the three variables that may raise: when it
    raises, the variables keep what was assigned before. *)
Definition block (A : Type) : Type := grid_vars -> result A * grid_vars.

Definition ret {A : Type} (a : A) : block A := fun s => (Ok a, s).

Definition bind_block {A B : Type} (m : block A) (k : A -> block B) : block B :=
  fun s =>
    match m s with
    | (Ok a, s') => k a s'
    | (Raise e, s') => (Raise e, s')
    end.

Definition eval {A : Type} (r : result A) : block A := fun s => (r, s).

Definition set_humidity (h : Q) : block unit :=
  fun s => (Ok tt, {| humidity := h;
                      visibility := visibility s;
                      precipitation := precipitation s |}).

Definition set_visibility (v : Q) : block unit :=
  fun s => (Ok tt, {| humidity := humidity s;
                      visibility := v;
                      precipitation := precipitation s |}).

Definition set_precipitation (p : Q) : block unit :=
  fun s => (Ok tt, {| humidity := humidity s;
                      visibility := visibility s;
                      precipitation := p |}).

Notation "x <~ e ;; k" := (bind_block e (fun x => k))
  (at level 61, e at next level, right associativity).
Notation "e ;;; k" := (bind_block e (fun _ => k))
  (at level 61, right associativity).

(** [try: b except Exception: pass] *)
Definition try_except_pass (b : block unit) (s : grid_vars) : grid_vars :=
  snd (b s).

(** [props.get(name, {}).get('values')], as a condition *)
Definition series_present (props : json) (name : string) : result bool :=
  d <- Py.get props name (JDict []) ;;
  v <- Py.get d "values" JNull ;;
  Ok (Py.truthy v).

(** [props[name]['values'][0]] *)
Definition series_first (props : json) (name : string) : result json :=
  a <- Py.getitem props name ;;
  b <- Py.getitem a "values" ;;
  Py.getitem0 b.

(** [float(props[name]['values'][0]['value'])
     if props[name]['values'][0].get('value') else default] *)
Definition series_value (props : json) (name : string) (default : Q) : result Q :=
  e <- series_first props name ;;
  c <- Py.get e "value" JNull ;;
  if Py.truthy c then
    e' <- series_first props name ;;
    x <- Py.getitem e' "value" ;;
    Py.float x
  else Ok default.

(** Lines 183-195, given [props] *)
Definition extract_series (props : json) : block unit :=
  (hp <~ eval (series_present props "relativeHumidity") ;;
   if hp : bool then
     h <~ eval (series_value props "relativeHumidity" 50) ;;
     set_humidity h
   else ret tt) ;;;
  (vp <~ eval (series_present props "visibility") ;;
   if vp : bool then
     visibility_m <~ eval (series_value props "visibility" 10000) ;;
     set_visibility (visibility_m / 1609.34)
   else ret tt) ;;;
  (pp <~ eval (series_present props "quantitativePrecipitation") ;;
   if pp : bool then
     qpf <~ eval (series_value props "quantitativePrecipitation" 0) ;;
     set_precipitation (if PyNum.nonzero qpf then qpf / 25.4 else 0)
   else ret tt).

(** Lines 175-195: the body of the inner [try] *)
Definition grid_body (net : network) (points_data : json) : block unit :=
  has <~ eval (p <- Py.getitem points_data "properties" ;;
               Py.contains "gridpoints" p) ;;
  if has : bool then
    grid_url <~ eval (p <- Py.getitem points_data "properties" ;;
                      g <- Py.getitem p "gridpoints" ;;
                      u <- Py.replace g "/wfo/" "/" ;;
                      Py.replace u "/grid/" "/") ;;
    grid_response <~ eval (requests_get net (url_of grid_url)) ;;
    if (status_code grid_response =? 200)%Z then
      grid_data <~ eval (response_json grid_response) ;;
      props <~ eval (Py.getitem grid_data "properties") ;;
      extract_series props
    else ret tt
  else ret tt.

(** Lines 169-198 *)
Definition grid_enrichment (net : network) (points_data : json) : grid_vars :=
  try_except_pass (grid_body net points_data) default_grid_vars.

(** *** The forecast fields (lines 156-167) *)

Record forecast_fields : Type := mkForecast {
  temp : Q;
  wind_speed : Q;
  wind_direction : json;
  time_of_day : string
}.

(** Line 160: [float(current['windSpeed'].split()[0])] *)
Definition parse_wind_speed (v : json) : result Q :=
  l <- Py.split v ;;
  t <- Py.first l ;;
  Py.float (JStr t).

(** Line 164 *)
Definition normalize_wind_direction (wind_dir_str : json) : json :=
  if Py.differs wind_dir_str "Calm" then wind_dir_str else JStr "N".

Definition extract_forecast (current : json) : result forecast_fields :=
  t <- Py.getitem current "temperature" ;;
  temp <- Py.float t ;;
  w <- Py.getitem current "windSpeed" ;;
  wind_speed <- parse_wind_speed w ;;
  wind_dir_str <- Py.getitem current "windDirection" ;;
  is_daytime <- Py.getitem current "isDaytime" ;;
  Ok {| temp := temp;
        wind_speed := wind_speed;
        wind_direction := normalize_wind_direction wind_dir_str;
        time_of_day := if Py.truthy is_daytime then "Day" else "Night" |}.

(** *** The outer [try] (lines 134-220) *)

(** What the body of the outer [try] returns when it does not raise, with
    what it has written to the page. *)
Definition returned : Type := option observation * list ui.

(** Lines 135-156: the two requests, up to the current period.  [inl]: the
    function has returned; [inr]: [points_data] and [current]. *)
Definition first_period (net : network) (lat lon : Q)
  : result (returned + json * json) :=
  points_response <- requests_get net (points_url lat lon) ;;
  if negb (status_code points_response =? 200)%Z then
    Ok (inl (None, [st_error (location_error (status_code points_response))]))
  else
    points_data <- response_json points_response ;;
    p <- Py.getitem points_data "properties" ;;
    forecast_url <- Py.getitem p "forecast" ;;
    forecast_response <- requests_get net (url_of forecast_url) ;;
    if negb (status_code forecast_response =? 200)%Z then
      Ok (inl (None,
               [st_error (forecast_error (status_code forecast_response))]))
    else
      forecast_data <- response_json forecast_response ;;
      fp <- Py.getitem forecast_data "properties" ;;
      periods <- Py.getitem fp "periods" ;;
      current <- Py.getitem0 periods ;;
      Ok (inr (points_data, current)).

(** Lines 206-220 *)
Definition build (city : string) (f : forecast_fields) (g : grid_vars)
  : observation :=
  {| City := city;
     Temperature := temp f;
     Wind_Chill := wind_chill (temp f) (wind_speed f);
     Humidity := humidity g;
     Pressure := 29.9;
     Visibility := visibility g;
     Wind_Direction := wind_direction f;
     Wind_Speed := wind_speed f;
     Precipitation := precipitation g;
     Sunrise_Sunset := time_of_day f |}.

Definition try_body (net : network) (city : string) (lat lon : Q)
  : result returned :=
  x <- first_period net lat lon ;;
  match x with
  | inl r => Ok r
  | inr (points_data, current) =>
      f <- extract_forecast current ;;
      let g := grid_enrichment net points_data in
      Ok (Some (build city f g), [])
  end.

(** Lines 222-233: the [except] clauses, in their order. *)
Definition handler (e : exn) : returned :=
  match e with
  | Timeout => (None, [st_error timed_out])
  | ConnectionError => (None, [st_error connection_error])
  | KeyError k => (None, [st_error (missing_field k)])
  | _ => (None, [st_error (fetch_error e)])
  end.

(** Lines 102-233 *)
Definition get_weather_data (net : network) (city : string) : returned :=
  match Py.lookup (city_lower city) michigan_cities with
  | None => (None, [st_error (city_not_found city); st_write available])
  | Some (lat, lon) =>
      match try_body net city lat lon with
      | Ok r => r
      | Raise e => handler e
      end
  end.

(** ** Vocabulary of the statements *)

(** A string of white space only. *)
Fixpoint blank (s : string) : bool :=
  match s with
  | EmptyString => true
  | String c s' => PyStr.is_space c && blank s'
  end.

(** A non-empty string without white space: one token of [split]. *)
Fixpoint no_space (s : string) : bool :=
  match s with
  | EmptyString => true
  | String c s' => negb (PyStr.is_space c) && no_space s'
  end.

(** The spellings of the floats that are not finite: after white space is
    stripped, an optional sign and "inf", "infinity" or "nan" in any case.
    [float] accepts them; the number model has no value for them. *)
Definition spells_non_finite (s : string) : bool :=
  let w := PyStr.lower (snd (PyNum.sign (PyNum.strip s))) in
  String.eqb w "inf" || String.eqb w "infinity" || String.eqb w "nan".

(** Text in title case: every letter that follows a letter is in lower
    case, every other letter is in upper case. *)
Fixpoint in_title_case_from (after_letter : bool) (s : string) : bool :=
  match s with
  | EmptyString => true
  | String c s' =>
      if PyStr.is_lower c then after_letter && in_title_case_from true s'
      else if PyStr.is_upper c
           then negb after_letter && in_title_case_from true s'
           else in_title_case_from false s'
  end.

Definition in_title_case (s : string) : bool := in_title_case_from false s.

Definition compass_points : list json :=
  map JStr ["N"; "NE"; "E"; "SE"; "S"; "SW"; "W"; "NW"].

(** The order of the city names in the message. *)
Definition alphabetical (a b : string) : Prop := String.leb a b = true.

(** The part of [grid_body] before the series are read: [Ok (Some props)]
    when the grid data has arrived, [Ok None] when the request is not made
    or its status is not 200, [Raise e] when a step raises. *)
Definition grid_props (net : network) (points_data : json)
  : result (option json) :=
  has <- (p <- Py.getitem points_data "properties" ;;
          Py.contains "gridpoints" p) ;;
  if has : bool then
    grid_url <- (p <- Py.getitem points_data "properties" ;;
                 g <- Py.getitem p "gridpoints" ;;
                 u <- Py.replace g "/wfo/" "/" ;;
                 Py.replace u "/grid/" "/") ;;
    grid_response <- requests_get net (url_of grid_url) ;;
    if (status_code grid_response =? 200)%Z then
      grid_data <- response_json grid_response ;;
      props <- Py.getitem grid_data "properties" ;;
      Ok (Some props)
    else Ok None
  else Ok None.

(** One of the three [if] statements of lines 184-195 as an expression:
    [Ok None] when the series is not there, [Ok (Some x)] when the variable
    is assigned the number [x] (before any unit conversion). *)
Definition read_series (props : json) (name : string) (default : Q)
  : result (option Q) :=
  present <- series_present props name ;;
  if present : bool then
    x <- series_value props name default ;;
    Ok (Some x)
  else Ok None.

(** The value the grid data carries for a series:
    [props[name]['values'][0]['value']] *)
Definition series_raw (props : json) (name : string) : result json :=
  e <- series_first props name ;;
  Py.getitem e "value".

(** ** Stub networks for the examples *)

Definition forecast_link : string :=
  "https://api.weather.gov/gridpoints/DTX/66,34/forecast".

Definition grid_link : string :=
  "https://api.weather.gov/gridpoints/DTX/66,34".

Definition points_without_grid : json :=
  JDict [("properties", JDict [("forecast", JStr forecast_link)])].

Definition points_with_grid : json :=
  JDict [("properties",
          JDict [("forecast", JStr forecast_link);
                 ("gridpoints",
                  JStr "https://api.weather.gov/wfo/gridpoints/grid/DTX/66,34")])].

Definition forecast_of (period : json) : json :=
  JDict [("properties", JDict [("periods", JList [period])])].

Definition period (temperature windSpeed windDirection : json) : json :=
  JDict [("temperature", temperature);
         ("windSpeed", windSpeed);
         ("windDirection", windDirection);
         ("isDaytime", JBool true)].

Definition period_nw : json := period (JNum 45) (JStr "12 mph") (JStr "NW").

Definition grid_of (series : list (string * json)) : json :=
  JDict [("properties", JDict series)].

Definition series_of (value : json) : json :=
  JDict [("values", JList [JDict [("value", value)]])].

(** The points request and the forecast request are answered with status
    200 and the given bodies; every other request is answered by [grid]. *)
Definition stub (points forecast : json) (grid : request_error + response)
  : network :=
  fun u =>
    match u with
    | points_url _ _ => inr (mkResponse 200 (Some points))
    | url_of (JStr s) =>
        if String.eqb s forecast_link
        then inr (mkResponse 200 (Some forecast))
        else grid
    | url_of _ => inl ReqOther
    end.

Definition ok_json (v : json) : request_error + response :=
  inr (mkResponse 200 (Some v)).

(** The scenario of the specification: Detroit, 45 degrees, 12 mph from
    the north-west by day, no grid data. *)
Definition net_end_to_end : network :=
  stub points_without_grid (forecast_of period_nw) (inl ReqTimeout).

Definition fields_nw : forecast_fields :=
  {| temp := 45;
     wind_speed := 12 # 1;
     wind_direction := JStr "NW";
     time_of_day := "Day" |}.

Definition net_nne : network :=
  stub points_without_grid
       (forecast_of (period (JNum 45) (JStr "12 mph") (JStr "NNE")))
       (inl ReqTimeout).

Definition net_range : network :=
  stub points_without_grid
       (forecast_of (period (JNum 45) (JStr "10 to 15 mph") (JStr "NW")))
       (inl ReqTimeout).

Definition period_no_temperature : list (string * json) :=
  [("windSpeed", JStr "12 mph"); ("windDirection", JStr "NW");
   ("isDaytime", JBool true)].

Definition net_no_temperature : network :=
  stub points_without_grid (forecast_of (JDict period_no_temperature))
       (inl ReqTimeout).

Definition period_no_wind_speed : list (string * json) :=
  [("temperature", JStr "warm"); ("windDirection", JStr "NW");
   ("isDaytime", JBool true)].

Definition net_no_wind_speed : network :=
  stub points_without_grid (forecast_of (JDict period_no_wind_speed))
       (inl ReqTimeout).

Definition net_grid_timeout : network :=
  stub points_with_grid (forecast_of period_nw) (inl ReqTimeout).

Definition grid_partial : json :=
  grid_of [("relativeHumidity", series_of (JNum 80));
           ("visibility", series_of (JStr "far"))].

Definition net_grid_partial : network :=
  stub points_with_grid (forecast_of period_nw) (ok_json grid_partial).

Definition grid_visibility_null : json :=
  grid_of [("visibility", series_of JNull)].

Definition net_visibility_null : network :=
  stub points_with_grid (forecast_of period_nw) (ok_json grid_visibility_null).

Definition net_humidity_zero : network :=
  stub points_with_grid (forecast_of period_nw)
       (ok_json (grid_of [("relativeHumidity", series_of (JNum 0))])).

Definition net_humidity_zero_string : network :=
  stub points_with_grid (forecast_of period_nw)
       (ok_json (grid_of [("relativeHumidity", series_of (JStr "0"))])).

(** ** The risk display (lines 323-378) *)

(** The four circles of the header line. *)
Inductive circle : Type := green | yellow | red | white.

(** Lines 332-336 *)
Definition risk_colors : list (string * circle) :=
  [("Low", green); ("Medium", yellow); ("High", red)].

(** Line 338: [risk_colors.get(prediction, white)] *)
Definition risk_circle (prediction : string) : circle :=
  match Py.lookup prediction risk_colors with
  | Some c => c
  | None => white
  end.

(** Line 325: [dict(zip(class_names, probabilities))]; [zip] stops at the
    shorter list and a later pair replaces an earlier one with the same
    class, so the dictionary is read from the last pair backwards. *)
Definition prob_dict (class_names : list string) (probabilities : list Q)
  : list (string * Q) :=
  rev (combine class_names probabilities).

(** Lines 342-345: one progress bar per risk level the dictionary has. *)
Definition confidence_bars (d : list (string * Q)) : list (string * Q) :=
  flat_map (fun risk_level =>
              match Py.lookup risk_level d with
              | Some prob => [(risk_level, prob)]
              | None => []
              end)
           ["High"; "Medium"; "Low"].

(** The three blocks of advice, shown by [st.error], [st.warning] and
    [st.success]. *)
Inductive advice : Type := high_risk | moderate_risk | low_risk.

(** Lines 351-378 *)
Definition recommendation (prediction : string) : advice :=
  if String.eqb prediction "High" then high_risk
  else if String.eqb prediction "Medium" then moderate_risk
  else low_risk.

(** ** More vocabulary *)

(** A number that [float] converts without rounding and without an
    overflow: of magnitude at most 2 ^ 53. *)
Definition converts_exactly (q : Q) : Prop :=
  (- (9007199254740992) <= q /\ q <= 9007199254740992)%Q.

(** The decimal notation of a natural number. *)
Definition decimal (n : nat) : string :=
  NilEmpty.string_of_uint (Nat.to_uint n).

(** The message of the outer handler for an exception of [requests.get]. *)
Definition request_error_message (e : request_error) : message :=
  match e with
  | ReqTimeout => timed_out
  | ReqConnectionError => connection_error
  | ReqOther => fetch_error RequestException
  end.

(** The first request is answered with status 200 and a JSON object whose
    properties hold a forecast URL. *)
Definition points_answer (net : network) (lat lon : Q)
           (forecast_url : json) : Prop :=
  exists r points_data d,
    net (points_url lat lon) = inr r /\ status_code r = 200%Z /\
    body r = Some points_data /\
    Py.getitem points_data "properties" = Ok (JDict d) /\
    Py.lookup "forecast" d = Some forecast_url.

(** ** More stub networks *)

Definition grid_series_full : list (string * json) :=
  [("relativeHumidity", series_of (JNum 150));
   ("visibility", series_of (JNum 16093.4));
   ("quantitativePrecipitation", series_of (JNum 2.54))].

Definition net_grid_full : network :=
  stub points_with_grid (forecast_of period_nw)
       (ok_json (grid_of grid_series_full)).

Definition points_plain_grid : json :=
  JDict [("properties",
          JDict [("forecast", JStr forecast_link);
                 ("gridpoints", JStr grid_link)])].

Definition net_unreachable : network := fun _ => inl ReqConnectionError.

Definition net_unavailable : network := fun _ => inr (mkResponse 503 None).

Definition net_empty_object : network :=
  fun _ => inr (mkResponse 200 (Some (JDict []))).

Definition net_no_periods : network :=
  stub points_without_grid
       (JDict [("properties", JDict [("periods", JList [])])])
       (inl ReqTimeout).

Definition net_blank_wind_speed : network :=
  stub points_without_grid
       (forecast_of (period (JNum 45) (JStr "  ") (JStr "NW")))
       (inl ReqTimeout).

(** * Properties *)

(** ** The Python layer on examples *)

Example float_of_string_12 : PyNum.float_of_string "12" = Some (12 # 1).
Proof. reflexivity. Qed.
Example float_of_string_frac :
  PyNum.float_of_string " -1_0.25e1 " = Some ((-1025) # 10).
Proof. reflexivity. Qed.
Example float_of_string_dot : PyNum.float_of_string "." = None.
Proof. reflexivity. Qed.
Example float_of_string_dot5 : PyNum.float_of_string ".5" = Some (5 # 10).
Proof. reflexivity. Qed.
Example float_of_string_5dot : PyNum.float_of_string "5." = Some (5 # 1).
Proof. reflexivity. Qed.
Example float_of_string_mph : PyNum.float_of_string "mph" = None.
Proof. reflexivity. Qed.
Example split_ex : PyStr.split "  10 to  15 mph " = ["10"; "to"; "15"; "mph"].
Proof. reflexivity. Qed.
Example title_ex : PyStr.title "ann arbor" = "Ann Arbor".
Proof. reflexivity. Qed.
Example replace_ex :
  PyStr.replace "/wfo/" "/" "a/wfo/b/wfo/wfo/c" = "a/b/wfo/c".
Proof. reflexivity. Qed.
Example strip_ex : PyStr.strip "  a b  " = "a b".
Proof. reflexivity. Qed.
Example spells_non_finite_ex :
  spells_non_finite " -Infinity " = true /\ spells_non_finite "NaN" = true /\
  spells_non_finite "warm" = false /\ spells_non_finite "12" = false.
Proof. repeat split. Qed.
Example grid_url_ex :
  PyStr.replace "/grid/" "/"
    (PyStr.replace "/wfo/" "/"
       "https://api.weather.gov/wfo/gridpoints/grid/DTX/66,34") = grid_link.
Proof. reflexivity. Qed.

(** ** City lookup *)

Lemma space_not_upper (c : ascii) :
  PyStr.is_space c = true -> PyStr.lower_char c = c.
Proof.
  destruct c as [[] [] [] [] [] [] [] []]; vm_compute; intros H;
    first [discriminate H | reflexivity].
Qed.

Lemma lower_app (a b : string) :
  PyStr.lower (a ++ b) = PyStr.lower a ++ PyStr.lower b.
Proof.
  induction a as [| c a IH]; simpl; [reflexivity | now rewrite IH].
Qed.

Lemma lower_blank (s : string) : blank s = true -> PyStr.lower s = s.
Proof.
  induction s as [| c s IH]; simpl; intros H; [reflexivity |].
  apply andb_true_iff in H. destruct H as [Hc Hs].
  rewrite (space_not_upper c Hc).
  now rewrite IH.
Qed.

Lemma lstrip_blank (s : string) : blank s = true -> PyStr.lstrip s = "".
Proof.
  induction s as [| c s IH]; simpl; intros H; [reflexivity |].
  apply andb_true_iff in H. destruct H as [Hc Hs].
  rewrite Hc. auto.
Qed.

Lemma lstrip_blank_app (a s : string) :
  blank a = true -> PyStr.lstrip (a ++ s) = PyStr.lstrip s.
Proof.
  induction a as [| c a IH]; simpl; intros H; [reflexivity |].
  apply andb_true_iff in H. destruct H as [Hc Ha].
  rewrite Hc. auto.
Qed.

Lemma lstrip_app (s t : string) :
  PyStr.lstrip (s ++ t) =
  if PyStr.is_empty (PyStr.lstrip s) then PyStr.lstrip t
  else PyStr.lstrip s ++ t.
Proof.
  induction s as [| c s IH]; simpl.
  - reflexivity.
  - destruct (PyStr.is_space c); simpl; [exact IH | reflexivity].
Qed.

Lemma rstrip_blank (s : string) : blank s = true -> PyStr.rstrip s = "".
Proof.
  induction s as [| c s IH]; simpl; intros H; [reflexivity |].
  apply andb_true_iff in H. destruct H as [Hc Hs].
  rewrite (IH Hs), Hc. reflexivity.
Qed.

Lemma rstrip_app_blank (s b : string) :
  blank b = true -> PyStr.rstrip (s ++ b) = PyStr.rstrip s.
Proof.
  intros Hb. induction s as [| c s IH]; simpl.
  - now apply rstrip_blank.
  - now rewrite IH.
Qed.

Lemma strip_padding (a s b : string) :
  blank a = true -> blank b = true ->
  PyStr.strip (a ++ s ++ b) = PyStr.strip s.
Proof.
  intros Ha Hb. unfold PyStr.strip.
  rewrite (lstrip_blank_app a _ Ha), lstrip_app.
  destruct (PyStr.lstrip s) as [| c r] eqn:E; simpl PyStr.is_empty; cbv iota.
  - rewrite (lstrip_blank b Hb). reflexivity.
  - now apply rstrip_app_blank.
Qed.

Lemma city_lower_padding (a s b : string) :
  blank a = true -> blank b = true ->
  city_lower (a ++ s ++ b) = PyStr.strip (PyStr.lower s).
Proof.
  intros Ha Hb. unfold city_lower.
  rewrite !lower_app, (lower_blank a Ha), (lower_blank b Hb).
  now apply strip_padding.
Qed.

Lemma table_lookup (k : string) (c : Q * Q) :
  In (k, c) michigan_cities ->
  Py.lookup (PyStr.strip k) michigan_cities = Some c.
Proof.
  unfold michigan_cities. simpl.
  intros H.
  repeat (destruct H as [H | H]; [injection H as <- <-; reflexivity |]).
  contradiction.
Qed.

(** C5: for every key of the city table, every spelling of it in upper or
    lower case, padded on either side with white space, resolves to the
    coordinate pair stored for the key, and [get_weather_data] goes on with
    that pair; the input "  DETROIT  " resolves to (42.3314, -83.0458). *)
Theorem city_resolution_insensitive :
  forall (net : network) (key : string) (lat lon : Q) (a s b : string),
    In (key, (lat, lon)) michigan_cities ->
    blank a = true -> blank b = true ->
    PyStr.lower s = key ->
    Py.lookup (city_lower (a ++ s ++ b)) michigan_cities = Some (lat, lon) /\
    get_weather_data net (a ++ s ++ b) =
      match try_body net (a ++ s ++ b) lat lon with
      | Ok r => r
      | Raise e => handler e
      end /\
    Py.lookup (city_lower "  DETROIT  ") michigan_cities
      = Some (42.3314, -83.0458)%Q.
Proof.
  intros net key lat lon a s b Hin Ha Hb Hs.
  assert (L : Py.lookup (city_lower (a ++ s ++ b)) michigan_cities
              = Some (lat, lon)).
  { rewrite (city_lower_padding a s b Ha Hb), Hs. now apply table_lookup. }
  split; [exact L |]. split; [| reflexivity].
  unfold get_weather_data. rewrite L. reflexivity.
Qed.

Lemma city_resolution_insensitive_witness :
  Py.lookup (city_lower ("  " ++ "DETROIT" ++ "  ")) michigan_cities
    = Some (42.3314, -83.0458)%Q.
Proof.
  apply (city_resolution_insensitive
           (stub points_without_grid (forecast_of period_nw) (inl ReqTimeout))
           "detroit" 42.3314%Q (-83.0458)%Q "  " "DETROIT" "  ").
  - left. reflexivity.
  - reflexivity.
  - reflexivity.
  - reflexivity.
Defined.

(** ** The message for an unknown city *)

Lemma upper_of_lower (c : ascii) :
  PyStr.is_lower c = true ->
  PyStr.is_lower (PyStr.upper_char c) = false /\
  PyStr.is_upper (PyStr.upper_char c) = true.
Proof.
  destruct c as [[] [] [] [] [] [] [] []]; vm_compute; intros H;
    first [discriminate H | split; reflexivity].
Qed.

Lemma lower_of_upper (c : ascii) :
  PyStr.is_upper c = true -> PyStr.is_lower (PyStr.lower_char c) = true.
Proof.
  destruct c as [[] [] [] [] [] [] [] []]; vm_compute; intros H;
    first [discriminate H | reflexivity].
Qed.

Lemma title_from_idempotent (s : string) (p : bool) :
  PyStr.title_from p (PyStr.title_from p s) = PyStr.title_from p s.
Proof.
  revert p. induction s as [| c s IH]; intros p; simpl; [reflexivity |].
  destruct (PyStr.is_lower c) eqn:L.
  - destruct p; simpl.
    + now rewrite L, IH.
    + destruct (upper_of_lower c L) as [L' U']. now rewrite L', U', IH.
  - destruct (PyStr.is_upper c) eqn:U.
    + destruct p; simpl.
      * now rewrite (lower_of_upper c U), IH.
      * now rewrite L, U, IH.
    + simpl. now rewrite L, U, IH.
Qed.

Lemma insert_permutation (x : string) (l : list string) :
  Permutation (PyStr.insert x l) (x :: l).
Proof.
  induction l as [| y l IH]; simpl; [reflexivity |].
  destruct (String.leb x y); [reflexivity |].
  rewrite IH. apply perm_swap.
Qed.

Lemma sorted_permutation (l : list string) : Permutation (PyStr.sorted l) l.
Proof.
  induction l as [| x l IH]; simpl; [reflexivity |].
  rewrite insert_permutation. now constructor.
Qed.

Lemma insert_hd (x a : string) (l : list string) :
  alphabetical a x -> HdRel alphabetical a l ->
  HdRel alphabetical a (PyStr.insert x l).
Proof.
  intros Hax Hl. destruct l as [| y l]; simpl.
  - now constructor.
  - destruct (String.leb x y); constructor; trivial.
    now inversion Hl.
Qed.

Lemma insert_sorted (x : string) (l : list string) :
  Sorted alphabetical l -> Sorted alphabetical (PyStr.insert x l).
Proof.
  induction 1 as [| y l Hs IH Hd]; simpl.
  - repeat constructor.
  - destruct (String.leb x y) eqn:E.
    + repeat constructor; assumption.
    + constructor; [exact IH |].
      apply insert_hd; [| exact Hd].
      destruct (String.leb_total x y) as [T | T]; [congruence | exact T].
Qed.

Lemma sorted_is_sorted (l : list string) : Sorted alphabetical (PyStr.sorted l).
Proof.
  induction l as [| x l IH]; simpl; [constructor | now apply insert_sorted].
Qed.

Lemma lookup_absent {A : Type} (k : string) (d : list (string * A)) :
  ~ In k (map fst d) -> Py.lookup k d = None.
Proof.
  induction d as [| [k' v] d IH]; simpl; intros H; [reflexivity |].
  destruct (String.eqb_spec k k') as [-> | N].
  - exfalso. apply H. now left.
  - apply IH. intros I. apply H. now right.
Qed.

Lemma available_names_value :
  available_names =
  ["Ann Arbor"; "Battle Creek"; "Dearborn"; "Detroit"; "Flint";
   "Grand Rapids"; "Jackson"; "Kalamazoo"; "Lansing"; "Livonia";
   "Muskegon"; "Saginaw"; "Sterling Heights"; "Troy"; "Warren"].
Proof. vm_compute. reflexivity. Qed.

(** C6: when the trimmed, lower-cased input is not a key of the city table,
    [get_weather_data] returns no observation and writes, after the error
    line, the fifteen names of the table joined by ", ": "Ann Arbor, Battle
    Creek, ..., Warren".  The names are the title-cased keys, all of them,
    in alphabetical order, each word with an upper-case initial followed by
    lower-case letters. *)
Theorem unknown_city_suggestions :
  forall (net : network) (city : string),
    ~ In (city_lower city) (map fst michigan_cities) ->
    get_weather_data net city =
      (None, [st_error (city_not_found city);
              st_write ("Ann Arbor, Battle Creek, Dearborn, Detroit, Flint, "
                        ++ "Grand Rapids, Jackson, Kalamazoo, Lansing, "
                        ++ "Livonia, Muskegon, Saginaw, Sterling Heights, "
                        ++ "Troy, Warren")]) /\
    available_names =
      ["Ann Arbor"; "Battle Creek"; "Dearborn"; "Detroit"; "Flint";
       "Grand Rapids"; "Jackson"; "Kalamazoo"; "Lansing"; "Livonia";
       "Muskegon"; "Saginaw"; "Sterling Heights"; "Troy"; "Warren"] /\
    Permutation available_names (map PyStr.title (map fst michigan_cities)) /\
    Sorted alphabetical available_names /\
    (forall name, In name available_names -> in_title_case name = true) /\
    (forall name, In name available_names -> PyStr.title name = name).
Proof.
  intros net city H. split; [| split; [| split; [| split; [| split]]]].
  - unfold get_weather_data. now rewrite (lookup_absent _ _ H).
  - exact available_names_value.
  - unfold available_names. apply Permutation_map, sorted_permutation.
  - rewrite available_names_value.
    repeat (constructor; [| first [constructor; reflexivity | constructor]]).
    constructor.
  - rewrite available_names_value. intros name I. simpl in I.
    repeat (destruct I as [<- | I]; [reflexivity |]). contradiction.
  - unfold available_names. intros name I.
    apply in_map_iff in I. destruct I as [k [<- _]].
    apply title_from_idempotent.
Qed.

Lemma unknown_city_suggestions_witness :
  get_weather_data (fun _ => inl ReqTimeout) "Chicago" =
    (None, [st_error (city_not_found "Chicago");
            st_write ("Ann Arbor, Battle Creek, Dearborn, Detroit, Flint, "
                      ++ "Grand Rapids, Jackson, Kalamazoo, Lansing, "
                      ++ "Livonia, Muskegon, Saginaw, Sterling Heights, "
                      ++ "Troy, Warren")]).
Proof.
  apply (unknown_city_suggestions (fun _ => inl ReqTimeout) "Chicago").
  vm_compute. intros H.
  repeat (destruct H as [H | H]; [discriminate H |]).
  exact H.
Defined.

(** ** The fetch as a whole *)

(** Case analysis on the steps of a computation in hypothesis [H]. *)
Ltac unbind H :=
  unfold bind in H;
  repeat match type of H with
         | context [match ?x with _ => _ end] =>
             destruct x eqn:?; try discriminate H
         end.

Lemma handler_none (e : exn) : fst (handler e) = None.
Proof. destruct e; reflexivity. Qed.

Lemma first_period_inl (net : network) (lat lon : Q) (r : returned) :
  first_period net lat lon = Ok (inl r) -> fst r = None.
Proof.
  unfold first_period. intros H. unbind H; now inversion H.
Qed.

Lemma success_inversion (net : network) (city : string)
      (o : observation) (log : list ui) :
  get_weather_data net city = (Some o, log) ->
  exists lat lon points_data current f,
    Py.lookup (city_lower city) michigan_cities = Some (lat, lon) /\
    first_period net lat lon = Ok (inr (points_data, current)) /\
    extract_forecast current = Ok f /\
    o = build city f (grid_enrichment net points_data) /\
    log = [].
Proof.
  unfold get_weather_data.
  destruct (Py.lookup _ _) as [[lat lon] |]; [| discriminate].
  destruct (try_body net city lat lon) as [r | e] eqn:T.
  - intros ->. unfold try_body in T.
    destruct (first_period net lat lon) as [[r | [pd cur]] | e] eqn:F;
      simpl in T; [| | discriminate].
    + injection T as T. apply first_period_inl in F.
      rewrite T in F. discriminate.
    + destruct (extract_forecast cur) as [f | e] eqn:E; simpl in T;
        [| discriminate].
      injection T as <- <-.
      now exists lat, lon, pd, cur, f.
  - intros H. pose proof (handler_none e) as N. rewrite H in N. discriminate.
Qed.

Lemma success_intro (net : network) (city : string) (lat lon : Q)
      (points_data current : json) (f : forecast_fields) :
  Py.lookup (city_lower city) michigan_cities = Some (lat, lon) ->
  first_period net lat lon = Ok (inr (points_data, current)) ->
  extract_forecast current = Ok f ->
  get_weather_data net city =
    (Some (build city f (grid_enrichment net points_data)), []).
Proof.
  intros L F E. unfold get_weather_data, try_body.
  rewrite L, F. simpl. rewrite E. reflexivity.
Qed.

(** C9: every observation that [get_weather_data] returns has the pressure
    29.9, whatever the city and whatever the weather service answers. *)
Theorem pressure_constant :
  forall (net : network) (city : string) (o : observation) (log : list ui),
    get_weather_data net city = (Some o, log) ->
    Pressure o = 29.9%Q.
Proof.
  intros net city o log H.
  destruct (success_inversion _ _ _ _ H)
    as (lat & lon & pd & cur & f & _ & _ & _ & -> & _).
  reflexivity.
Qed.

Lemma pressure_constant_witness :
  get_weather_data net_end_to_end "  DETROIT  "
    = (Some (build "  DETROIT  " fields_nw default_grid_vars), []) /\
  Pressure (build "  DETROIT  " fields_nw default_grid_vars) = 29.9%Q.
Proof.
  split; [reflexivity |].
  apply (pressure_constant net_end_to_end "  DETROIT  " _ []).
  reflexivity.
Defined.

(** The end-to-end scenario of the specification. *)
Example end_to_end :
  get_weather_data net_end_to_end "  DETROIT  "
    = (Some (build "  DETROIT  " fields_nw default_grid_vars), []) /\
  Wind_Chill (build "  DETROIT  " fields_nw default_grid_vars)
    = wind_chill_formula (Q2R 45) (Q2R 12).
Proof. split; reflexivity. Qed.

(** ** The forecast fields *)

Lemma extract_forecast_inversion (current : json) (f : forecast_fields) :
  extract_forecast current = Ok f ->
  exists t w d i,
    Py.getitem current "temperature" = Ok t /\
    Py.float t = Ok (temp f) /\
    Py.getitem current "windSpeed" = Ok w /\
    parse_wind_speed w = Ok (wind_speed f) /\
    Py.getitem current "windDirection" = Ok d /\
    wind_direction f = normalize_wind_direction d /\
    Py.getitem current "isDaytime" = Ok i /\
    time_of_day f = if Py.truthy i then "Day" else "Night".
Proof.
  unfold extract_forecast. intros H.
  destruct (Py.getitem current "temperature") as [t |] eqn:E1;
    simpl in H; [| discriminate].
  destruct (Py.float t) as [x |] eqn:E2; simpl in H; [| discriminate].
  destruct (Py.getitem current "windSpeed") as [w |] eqn:E3;
    simpl in H; [| discriminate].
  destruct (parse_wind_speed w) as [y |] eqn:E4; simpl in H; [| discriminate].
  destruct (Py.getitem current "windDirection") as [d |] eqn:E5;
    simpl in H; [| discriminate].
  destruct (Py.getitem current "isDaytime") as [i |] eqn:E6;
    simpl in H; [| discriminate].
  injection H as <-. simpl.
  exists t, w, d, i. repeat split; trivial.
Qed.

Lemma differs_false (v : json) (s : string) :
  Py.differs v s = false <-> v = JStr s.
Proof.
  split.
  - destruct v; simpl; try discriminate.
    intros H. apply negb_false_iff, String.eqb_eq in H. now subst.
  - intros ->. simpl. now rewrite String.eqb_refl.
Qed.

Lemma normalize_calm : normalize_wind_direction (JStr "Calm") = JStr "N".
Proof. reflexivity. Qed.

Lemma normalize_other (v : json) :
  v <> JStr "Calm" -> normalize_wind_direction v = v.
Proof.
  intros H. unfold normalize_wind_direction.
  destruct (Py.differs v "Calm") eqn:D; [reflexivity |].
  apply differs_false in D. contradiction.
Qed.

Lemma compass_not_calm (v : json) : In v compass_points -> v <> JStr "Calm".
Proof.
  unfold compass_points. simpl. intros H.
  repeat (destruct H as [H | H]; [subst v; discriminate |]).
  contradiction.
Qed.

(** C7, as the code has it: the observation's wind direction is "N" when the
    period's [windDirection] is the literal "Calm" and the period's value
    itself otherwise; so each of the eight compass strings passes through
    unchanged, and so does every other value. *)
Theorem wind_direction_normalized :
  forall (net : network) (city : string) (lat lon : Q)
         (points_data current : json) (f : forecast_fields) (v : json),
    Py.lookup (city_lower city) michigan_cities = Some (lat, lon) ->
    first_period net lat lon = Ok (inr (points_data, current)) ->
    extract_forecast current = Ok f ->
    Py.getitem current "windDirection" = Ok v ->
    exists o,
      get_weather_data net city = (Some o, []) /\
      (v = JStr "Calm" -> Wind_Direction o = JStr "N") /\
      (v <> JStr "Calm" -> Wind_Direction o = v) /\
      (In v compass_points -> Wind_Direction o = v).
Proof.
  intros net city lat lon pd cur f v L F E G.
  exists (build city f (grid_enrichment net pd)).
  split; [now apply success_intro with lat lon cur |].
  destruct (extract_forecast_inversion _ _ E)
    as (t & w & d & i & _ & _ & _ & _ & D & N & _).
  rewrite G in D. injection D as <-. simpl. rewrite N.
  repeat split.
  - intros ->. reflexivity.
  - apply normalize_other.
  - intros I. apply normalize_other. now apply compass_not_calm.
Qed.

Lemma wind_direction_counterexample :
  option_map Wind_Direction (fst (get_weather_data net_nne "Detroit"))
    = Some (JStr "NNE") /\
  ~ In (JStr "NNE") compass_points.
Proof.
  split; [reflexivity |].
  unfold compass_points. simpl. intros H.
  repeat (destruct H as [H | H]; [discriminate H |]). exact H.
Qed.

Lemma wind_direction_normalized_witness :
  exists o,
    get_weather_data net_end_to_end "  DETROIT  " = (Some o, []) /\
    Wind_Direction o = JStr "NW".
Proof.
  destruct (wind_direction_normalized net_end_to_end "  DETROIT  "
              42.3314%Q (-83.0458)%Q points_without_grid period_nw fields_nw
              (JStr "NW"))
    as (o & H1 & _ & H2 & _).
  - reflexivity.
  - reflexivity.
  - reflexivity.
  - reflexivity.
  - exists o. split; [exact H1 | apply H2; discriminate].
Defined.

(** *** Wind speed *)

Lemma split_space (c : ascii) (s : string) :
  PyStr.is_space c = true -> PyStr.split (String c s) = PyStr.split s.
Proof. intros H. simpl. now rewrite H. Qed.

Lemma split_token (tok rest : string) (c : ascii) :
  no_space tok = true -> tok <> "" -> PyStr.is_space c = true ->
  PyStr.split (tok ++ String c rest) = tok :: PyStr.split rest.
Proof.
  intros N E C. induction tok as [| a t IH]; [contradiction |].
  simpl in N. apply andb_true_iff in N. destruct N as [A N].
  apply negb_true_iff in A.
  change ((String a t) ++ String c rest) with (String a (t ++ String c rest)).
  cbn [PyStr.split]. rewrite A.
  destruct t as [| b t'].
  - simpl. rewrite C. reflexivity.
  - assert (B : PyStr.starts_with_space (String b t' ++ String c rest) = false).
    { simpl in N. apply andb_true_iff in N. destruct N as [B _].
      apply negb_true_iff in B. exact B. }
    rewrite B, IH; [reflexivity | exact N | discriminate].
Qed.

(** C8, as the code has it: a [windSpeed] string whose first token is followed by
    white space and more text, such as the range "10 to 15 mph", is parsed
    as its first token; "10 to 15 mph" gives 10 and the fetch returns an
    observation with that wind speed. *)
Theorem wind_speed_range_takes_first_number :
  forall (tok rest : string) (c : ascii),
    no_space tok = true -> tok <> "" -> PyStr.is_space c = true ->
    parse_wind_speed (JStr (tok ++ String c rest)) = Py.float (JStr tok) /\
    parse_wind_speed (JStr "10 to 15 mph") = Ok 10%Q /\
    option_map Wind_Speed (fst (get_weather_data net_range "Detroit"))
      = Some 10%Q.
Proof.
  intros tok rest c N E C. split; [| split; reflexivity].
  unfold parse_wind_speed. simpl Py.split. cbn [bind].
  rewrite (split_token tok rest c N E C). reflexivity.
Qed.

Lemma wind_speed_range_takes_first_number_witness :
  parse_wind_speed (JStr ("10" ++ String " " "to 15 mph"))
    = Py.float (JStr "10").
Proof.
  apply (wind_speed_range_takes_first_number "10" "to 15 mph" " ").
  - reflexivity.
  - discriminate.
  - reflexivity.
Defined.

Lemma wind_speed_range_counterexample :
  (forall e, parse_wind_speed (JStr "10 to 15 mph") <> Raise e) /\
  fst (get_weather_data net_range "Detroit") <> None.
Proof.
  split.
  - intros e H. vm_compute in H. discriminate H.
  - intros H. vm_compute in H. discriminate H.
Qed.

(** *** Missing fields *)

Lemma failure_result (net : network) (city : string) (lat lon : Q)
      (points_data current : json) (e : exn) :
  Py.lookup (city_lower city) michigan_cities = Some (lat, lon) ->
  first_period net lat lon = Ok (inr (points_data, current)) ->
  extract_forecast current = Raise e ->
  get_weather_data net city = handler e.
Proof.
  intros L F E. unfold get_weather_data, try_body.
  rewrite L, F. simpl. rewrite E. reflexivity.
Qed.

Lemma getitem_dict (d : list (string * json)) (k : string) :
  Py.getitem (JDict d) k =
  match Py.lookup k d with
  | Some x => Ok x
  | None => Raise (KeyError (KStr k))
  end.
Proof. reflexivity. Qed.

Lemma extract_missing (d : list (string * json)) :
  Py.lookup "temperature" d = None \/ Py.lookup "windSpeed" d = None \/
  Py.lookup "windDirection" d = None \/ Py.lookup "isDaytime" d = None ->
  exists e, extract_forecast (JDict d) = Raise e.
Proof.
  intros H. unfold extract_forecast. rewrite !getitem_dict.
  destruct (Py.lookup "temperature" d) as [t |]; simpl; [| eauto].
  destruct (Py.float t) as [x |]; simpl; [| eauto].
  destruct (Py.lookup "windSpeed" d) as [w |]; simpl; [| eauto].
  destruct (parse_wind_speed w) as [y |]; simpl; [| eauto].
  destruct (Py.lookup "windDirection" d) as [v |]; simpl; [| eauto].
  destruct (Py.lookup "isDaytime" d) as [i |]; simpl; [| eauto].
  destruct H as [H | [H | [H | H]]]; discriminate H.
Qed.

Lemma float_raises (v : json) (e : exn) :
  Py.float v = Raise e ->
  e = TypeError \/ e = ValueError \/ e = OverflowError.
Proof.
  destruct v; simpl; intros H; try (injection H as <-; now left).
  - discriminate H.
  - destruct (PyNum.overflows q); [| discriminate H].
    injection H as <-. right. now right.
  - destruct (PyNum.float_of_string s); [discriminate H |].
    injection H as <-. right. now left.
Qed.

Lemma parse_wind_speed_raises (v : json) (e : exn) :
  parse_wind_speed v = Raise e ->
  e = AttributeError \/ e = IndexError \/ e = ValueError.
Proof.
  unfold parse_wind_speed.
  destruct v; simpl; intros H; try (injection H as <-; now left).
  destruct (PyStr.split s) as [| t l]; simpl in H.
  - injection H as <-. right. now left.
  - destruct (PyNum.float_of_string t); [discriminate H |].
    injection H as <-. right. now right.
Qed.

(** C4, as the code has it: when the first period is an object without one
    of the required fields, no observation is returned.  The error names
    the first missing field, in the order temperature, windSpeed,
    windDirection, isDaytime, when the fields extracted before it are well
    formed: the temperature converts to a number and the wind speed parses.
    When the temperature does not convert, or converts while the wind speed
    does not parse, the line written is the generic one, with the type
    error, value error, overflow error, attribute error or index error
    that was raised;
    the spellings of the floats that are not finite, which do convert, are
    left aside. *)
Theorem missing_field_fails :
  forall (net : network) (city : string) (lat lon : Q)
         (points_data : json) (d : list (string * json)),
    Py.lookup (city_lower city) michigan_cities = Some (lat, lon) ->
    first_period net lat lon = Ok (inr (points_data, JDict d)) ->
    Py.lookup "temperature" d = None \/ Py.lookup "windSpeed" d = None \/
    Py.lookup "windDirection" d = None \/ Py.lookup "isDaytime" d = None ->
    fst (get_weather_data net city) = None /\
    (Py.lookup "temperature" d = None ->
     snd (get_weather_data net city)
       = [st_error (missing_field (KStr "temperature"))]) /\
    (forall t x,
       Py.lookup "temperature" d = Some t -> Py.float t = Ok x ->
       Py.lookup "windSpeed" d = None ->
       snd (get_weather_data net city)
         = [st_error (missing_field (KStr "windSpeed"))]) /\
    (forall t x w y,
       Py.lookup "temperature" d = Some t -> Py.float t = Ok x ->
       Py.lookup "windSpeed" d = Some w -> parse_wind_speed w = Ok y ->
       Py.lookup "windDirection" d = None ->
       snd (get_weather_data net city)
         = [st_error (missing_field (KStr "windDirection"))]) /\
    (forall t x w y v,
       Py.lookup "temperature" d = Some t -> Py.float t = Ok x ->
       Py.lookup "windSpeed" d = Some w -> parse_wind_speed w = Ok y ->
       Py.lookup "windDirection" d = Some v ->
       Py.lookup "isDaytime" d = None ->
       snd (get_weather_data net city)
         = [st_error (missing_field (KStr "isDaytime"))]) /\
    (forall t e,
       Py.lookup "temperature" d = Some t -> Py.float t = Raise e ->
       (forall s, t = JStr s -> spells_non_finite s = false) ->
       snd (get_weather_data net city) = [st_error (fetch_error e)] /\
       (e = TypeError \/ e = ValueError \/ e = OverflowError)) /\
    (forall t x w e,
       Py.lookup "temperature" d = Some t -> Py.float t = Ok x ->
       Py.lookup "windSpeed" d = Some w -> parse_wind_speed w = Raise e ->
       (forall s tok rest,
          w = JStr s -> PyStr.split s = tok :: rest ->
          spells_non_finite tok = false) ->
       snd (get_weather_data net city) = [st_error (fetch_error e)] /\
       (e = AttributeError \/ e = IndexError \/ e = ValueError)).
Proof.
  intros net city lat lon pd d L F M.
  assert (R : forall e, extract_forecast (JDict d) = Raise e ->
                        get_weather_data net city = handler e)
    by (intros e; now apply failure_result with lat lon pd).
  split; [| split; [| split; [| split; [| split; [| split]]]]].
  - destruct (extract_missing d M) as [e E].
    rewrite (R e E). apply handler_none.
  - intros T. rewrite (R (KeyError (KStr "temperature"))); [reflexivity |].
    unfold extract_forecast. rewrite getitem_dict, T. reflexivity.
  - intros t x T X W.
    rewrite (R (KeyError (KStr "windSpeed"))); [reflexivity |].
    unfold extract_forecast. rewrite !getitem_dict, T. simpl.
    rewrite X. simpl. rewrite W. reflexivity.
  - intros t x w y T X W Y D.
    rewrite (R (KeyError (KStr "windDirection"))); [reflexivity |].
    unfold extract_forecast. rewrite !getitem_dict, T. simpl.
    rewrite X. simpl. rewrite W. simpl. rewrite Y. simpl. rewrite D.
    reflexivity.
  - intros t x w y v T X W Y D I.
    rewrite (R (KeyError (KStr "isDaytime"))); [reflexivity |].
    unfold extract_forecast. rewrite !getitem_dict, T. simpl.
    rewrite X. simpl. rewrite W. simpl. rewrite Y. simpl. rewrite D. simpl.
    rewrite I. reflexivity.
  - intros t e T X _. pose proof (float_raises t e X) as C.
    split; [| exact C].
    rewrite (R e).
    + destruct C as [-> | [-> | ->]]; reflexivity.
    + unfold extract_forecast. rewrite getitem_dict, T. simpl.
      rewrite X. reflexivity.
  - intros t x w e T X W Y _.
    pose proof (parse_wind_speed_raises w e Y) as C.
    split; [| exact C].
    rewrite (R e).
    + destruct C as [-> | [-> | ->]]; reflexivity.
    + unfold extract_forecast. rewrite !getitem_dict, T. simpl.
      rewrite X. simpl. rewrite W. simpl. rewrite Y. reflexivity.
Qed.

Lemma missing_field_fails_witness :
  fst (get_weather_data net_no_temperature "Detroit") = None /\
  snd (get_weather_data net_no_temperature "Detroit")
    = [st_error (missing_field (KStr "temperature"))].
Proof.
  destruct (missing_field_fails net_no_temperature "Detroit"
              42.3314 (-83.0458) points_without_grid period_no_temperature)
    as (H1 & H2 & _).
  - reflexivity.
  - reflexivity.
  - left. reflexivity.
  - split; [exact H1 | apply H2; reflexivity].
Defined.

Lemma missing_field_counterexample :
  Py.lookup "windSpeed" period_no_wind_speed = None /\
  get_weather_data net_no_wind_speed "Detroit"
    = (None, [st_error (fetch_error ValueError)]) /\
  (forall k, snd (get_weather_data net_no_wind_speed "Detroit")
             <> [st_error (missing_field k)]).
Proof.
  repeat split. intros k H. vm_compute in H. discriminate H.
Qed.

(** ** Wind chill *)

Local Open Scope R_scope.

(** [10 ** 0.16] is the 25th root of [10 ^ 4]. *)
Lemma ten_pow_016 : (Rpower 10 0.16) ^ 25 = 10000.
Proof.
  assert (P : 0 < Rpower 10 0.16) by (unfold Rpower; apply exp_pos).
  rewrite <- (Rpower_pow 25 _ P), Rpower_mult.
  replace (0.16 * INR 25) with (INR 4) by (simpl; lra).
  rewrite Rpower_pow by lra. lra.
Qed.

Lemma Z_pow_lt_R (a b : Z) (n : nat) :
  (a ^ Z.of_nat n < b)%Z -> IZR a ^ n < IZR b.
Proof.
  intros H. rewrite pow_IZR. now apply IZR_lt.
Qed.

Lemma ten_pow_016_bounds : 1.4454 < Rpower 10 0.16 < 1.4455.
Proof.
  assert (P : 0 < Rpower 10 0.16) by (unfold Rpower; apply exp_pos).
  pose proof ten_pow_016 as E.
  split; apply Rnot_le_lt; intros H.
  - assert (L : (Rpower 10 0.16) ^ 25 <= 1.4454 ^ 25)
      by (apply pow_incr; lra).
    rewrite E in L.
    assert (B : (1.4454 * 10000) ^ 25 < 10000 * 10000 ^ 25).
    { replace (1.4454 * 10000) with (IZR 14454) by lra.
      replace (10000 * 10000 ^ 25) with (IZR (10000 * 10000 ^ 25)).
      - apply Z_pow_lt_R. vm_compute. reflexivity.
      - change 25%Z with (Z.of_nat 25). rewrite mult_IZR, <- pow_IZR. reflexivity. }
    rewrite Rpow_mult_distr in B.
    assert (T : 0 < 10000 ^ 25) by (apply pow_lt; lra).
    nra.
  - assert (L : 1.4455 ^ 25 <= (Rpower 10 0.16) ^ 25)
      by (apply pow_incr; lra).
    rewrite E in L.
    assert (B : 10000 * 10000 ^ 25 < (1.4455 * 10000) ^ 25).
    { replace (1.4455 * 10000) with (IZR 14455) by lra.
      replace (10000 * 10000 ^ 25) with (IZR (10000 * 10000 ^ 25)).
      - rewrite pow_IZR. apply IZR_lt. vm_compute. reflexivity.
      - change 25%Z with (Z.of_nat 25). rewrite mult_IZR, <- pow_IZR. reflexivity. }
    rewrite Rpow_mult_distr in B.
    assert (T : 0 < 10000 ^ 25) by (apply pow_lt; lra).
    nra.
Qed.

Lemma Q2R_30 : Q2R 30 = 30. Proof. unfold Q2R; simpl; lra. Qed.
Lemma Q2R_10 : Q2R 10 = 10. Proof. unfold Q2R; simpl; lra. Qed.

Lemma wind_chill_30_10 :
  wind_chill 30 10 = 54.385 - 22.925 * Rpower 10 0.16.
Proof.
  unfold wind_chill. simpl. unfold wind_chill_formula.
  rewrite Q2R_30, Q2R_10. lra.
Qed.

Lemma wind_chill_30_10_value : Rabs (wind_chill 30 10 - 21.25) <= 0.01.
Proof.
  rewrite wind_chill_30_10. pose proof ten_pow_016_bounds.
  apply Rabs_le. lra.
Qed.

Local Close Scope R_scope.

Lemma wind_chill_cold_windy (T V : Q) :
  (T <= 50)%Q -> (3 < V)%Q ->
  wind_chill T V = wind_chill_formula (Q2R T) (Q2R V).
Proof.
  intros HT HV. unfold wind_chill.
  apply Qle_bool_iff in HT. rewrite HT.
  destruct (Qle_bool V 3) eqn:E; [| reflexivity].
  apply Qle_bool_iff in E. elim (Qlt_not_le _ _ HV E).
Qed.

Lemma wind_chill_otherwise (T V : Q) :
  ~ ((T <= 50)%Q /\ (3 < V)%Q) -> wind_chill T V = Q2R T.
Proof.
  intros H. unfold wind_chill.
  destruct (Qle_bool T 50) eqn:ET; [| reflexivity].
  destruct (Qle_bool V 3) eqn:EV; [reflexivity |].
  exfalso. apply H. split.
  - now apply Qle_bool_iff.
  - apply Qnot_le_lt. intros L. apply Qle_bool_iff in L. congruence.
Qed.

(** C1, as the code has it: the wind chill is the closed formula when the
    temperature is at most 50 and the wind speed exceeds 3, and the
    temperature otherwise; the observation carries this value; at (30, 10)
    it is 21.25 to within 0.01, at (60, 10) it is 60 and at (30, 2) it is
    30. *)
Theorem wind_chill_branches :
  forall (T V : Q) (city : string) (f : forecast_fields) (g : grid_vars),
    ((T <= 50)%Q /\ (3 < V)%Q /\
     wind_chill T V =
       (35.74 + 0.6215 * Q2R T - 35.75 * Rpower (Q2R V) 0.16
        + 0.4275 * Q2R T * Rpower (Q2R V) 0.16)%R
     \/
     ~ ((T <= 50)%Q /\ (3 < V)%Q) /\ wind_chill T V = Q2R T) /\
    Wind_Chill (build city f g) = wind_chill (temp f) (wind_speed f) /\
    (Rabs (wind_chill 30 10 - 21.25) <= 0.01)%R /\
    wind_chill 60 10 = 60%R /\
    wind_chill 30 2 = 30%R.
Proof.
  intros T V city f g. split; [| split; [reflexivity | split; [| split]]].
  - destruct (Qlt_le_dec 50 T) as [HT | HT].
    + right. split; [| apply wind_chill_otherwise];
        intros [L _]; exact (Qlt_not_le _ _ HT L).
    + destruct (Qlt_le_dec 3 V) as [HV | HV].
      * left. repeat split; trivial. now apply wind_chill_cold_windy.
      * right. split; [| apply wind_chill_otherwise];
          intros [_ L]; exact (Qlt_not_le _ _ L HV).
  - exact wind_chill_30_10_value.
  - unfold wind_chill. simpl. unfold Q2R. simpl. lra.
  - unfold wind_chill. simpl. unfold Q2R. simpl. lra.
Qed.

Lemma wind_chill_fixture_counterexample :
  ~ (Rabs (wind_chill 30 10 - 19.99) <= 0.01)%R.
Proof.
  rewrite wind_chill_30_10. pose proof ten_pow_016_bounds as B.
  intros H. unfold Rabs in H.
  destruct (Rcase_abs _) in H; lra.
Qed.

(** ** The grid-data block *)

Local Open Scope Q_scope.

Lemma grid_body_props (net : network) (points_data : json) (s : grid_vars) :
  grid_body net points_data s =
  match grid_props net points_data with
  | Ok (Some props) => extract_series props s
  | Ok None => (Ok tt, s)
  | Raise e => (Raise e, s)
  end.
Proof.
  unfold grid_body, grid_props, bind_block, eval, ret.
  destruct (p <- Py.getitem points_data "properties" ;;
            Py.contains "gridpoints" p) as [[|] | e]; simpl; trivial.
  destruct (p <- Py.getitem points_data "properties" ;;
            g <- Py.getitem p "gridpoints" ;;
            u <- Py.replace g "/wfo/" "/" ;; Py.replace u "/grid/" "/")
    as [grid_url | e]; simpl; trivial.
  destruct (requests_get net (url_of grid_url)) as [r | e]; simpl; trivial.
  destruct (status_code r =? 200)%Z; trivial.
  destruct (response_json r) as [grid_data | e]; simpl; trivial.
  destruct (Py.getitem grid_data "properties") as [props | e]; simpl; trivial.
Qed.

Lemma grid_enrichment_props (net : network) (points_data : json) :
  grid_enrichment net points_data =
  match grid_props net points_data with
  | Ok (Some props) => snd (extract_series props default_grid_vars)
  | _ => default_grid_vars
  end.
Proof.
  unfold grid_enrichment, try_except_pass. rewrite grid_body_props.
  destruct (grid_props net points_data) as [[props |] | e]; reflexivity.
Qed.

Ltac series_cases props :=
  unfold extract_series, read_series, bind_block, eval, ret,
    set_humidity, set_visibility, set_precipitation;
  destruct (series_present props "relativeHumidity") as [[|] | ?]; simpl;
  try destruct (series_value props "relativeHumidity" 50) as [? | ?]; simpl;
  trivial;
  destruct (series_present props "visibility") as [[|] | ?]; simpl;
  try destruct (series_value props "visibility" 10000) as [? | ?]; simpl;
  trivial;
  destruct (series_present props "quantitativePrecipitation") as [[|] | ?];
  simpl;
  try destruct (series_value props "quantitativePrecipitation" 0) as [? | ?];
  simpl; trivial.

Lemma humidity_after (props : json) (s : grid_vars) :
  humidity (snd (extract_series props s)) =
  match read_series props "relativeHumidity" 50 with
  | Ok (Some x) => x
  | _ => humidity s
  end.
Proof. series_cases props. Qed.

Lemma visibility_after (props : json) (s : grid_vars) :
  visibility (snd (extract_series props s)) =
  match read_series props "relativeHumidity" 50,
        read_series props "visibility" 10000 with
  | Ok _, Ok (Some x) => x / 1609.34
  | _, _ => visibility s
  end.
Proof. series_cases props. Qed.

Lemma precipitation_after (props : json) (s : grid_vars) :
  precipitation (snd (extract_series props s)) =
  match read_series props "relativeHumidity" 50,
        read_series props "visibility" 10000,
        read_series props "quantitativePrecipitation" 0 with
  | Ok _, Ok _, Ok (Some x) => if PyNum.nonzero x then x / 25.4 else 0
  | _, _, _ => precipitation s
  end.
Proof. series_cases props. Qed.

(** C2, as the code has it: once the forecast fields are extracted the fetch returns
    an observation, whatever the grid-data request does.  When the grid data
    does not arrive (no grid URL, a request that raises, a status other than
    200, a body that is not JSON or has no properties) the observation has
    humidity 50, visibility 10.0 and precipitation 0.0.  When it arrives and
    reading a series raises, that series and the ones after it keep their
    defaults. *)
Theorem grid_enrichment_never_aborts :
  forall (net : network) (city : string) (lat lon : Q)
         (points_data current : json) (f : forecast_fields),
    Py.lookup (city_lower city) michigan_cities = Some (lat, lon) ->
    first_period net lat lon = Ok (inr (points_data, current)) ->
    extract_forecast current = Ok f ->
    exists o,
      get_weather_data net city = (Some o, []) /\
      (grid_props net points_data = Ok None \/
       (exists e, grid_props net points_data = Raise e) ->
       Humidity o = 50 /\ Visibility o = 10.0 /\ Precipitation o = 0.0) /\
      (forall props,
         grid_props net points_data = Ok (Some props) ->
         (forall e, read_series props "relativeHumidity" 50 = Raise e ->
                    Humidity o = 50 /\ Visibility o = 10.0 /\
                    Precipitation o = 0.0) /\
         (forall e, read_series props "visibility" 10000 = Raise e ->
                    Visibility o = 10.0 /\ Precipitation o = 0.0) /\
         (forall e, read_series props "quantitativePrecipitation" 0 = Raise e ->
                    Precipitation o = 0.0)).
Proof.
  intros net city lat lon pd cur f L F E.
  exists (build city f (grid_enrichment net pd)).
  split; [now apply success_intro with lat lon cur |].
  simpl. rewrite grid_enrichment_props. split.
  - intros [H | [e H]]; rewrite H; repeat split.
  - intros props H. rewrite H.
    rewrite humidity_after, visibility_after, precipitation_after.
    split; [| split]; intros e R; rewrite R.
    + repeat split.
    + destruct (read_series props "relativeHumidity" 50) as [[? |] | ?];
        split; reflexivity.
    + destruct (read_series props "relativeHumidity" 50) as [[? |] | ?];
        try reflexivity;
        destruct (read_series props "visibility" 10000) as [[? |] | ?];
        reflexivity.
Qed.

Lemma grid_enrichment_never_aborts_witness :
  exists o,
    get_weather_data net_grid_timeout "Detroit" = (Some o, []) /\
    Humidity o = 50 /\ Visibility o = 10.0 /\ Precipitation o = 0.0.
Proof.
  destruct (grid_enrichment_never_aborts net_grid_timeout "Detroit"
              42.3314 (-83.0458) points_with_grid period_nw fields_nw)
    as (o & H1 & H2 & _).
  - reflexivity.
  - reflexivity.
  - reflexivity.
  - exists o. split; [exact H1 |]. apply H2.
    right. exists Timeout. reflexivity.
Defined.

Lemma grid_failure_counterexample :
  fst (grid_body net_grid_partial points_with_grid default_grid_vars)
    = Raise ValueError /\
  option_map Humidity (fst (get_weather_data net_grid_partial "Detroit"))
    = Some 80 /\
  ~ 80 == 50.
Proof.
  repeat split. intros H. vm_compute in H. discriminate H.
Qed.

(** The ways in which the grid data does not arrive. *)
Lemma grid_props_failures (net : network) (points_data : json)
      (d : list (string * json)) :
  Py.getitem points_data "properties" = Ok (JDict d) ->
  (Py.lookup "gridpoints" d = None -> grid_props net points_data = Ok None) /\
  (forall s e,
     Py.lookup "gridpoints" d = Some (JStr s) ->
     net (url_of (JStr (PyStr.replace "/grid/" "/"
                          (PyStr.replace "/wfo/" "/" s)))) = inl e ->
     grid_props net points_data = Raise (exn_of_request_error e)) /\
  (forall s r,
     Py.lookup "gridpoints" d = Some (JStr s) ->
     net (url_of (JStr (PyStr.replace "/grid/" "/"
                          (PyStr.replace "/wfo/" "/" s)))) = inr r ->
     status_code r <> 200%Z ->
     grid_props net points_data = Ok None) /\
  (forall s r,
     Py.lookup "gridpoints" d = Some (JStr s) ->
     net (url_of (JStr (PyStr.replace "/grid/" "/"
                          (PyStr.replace "/wfo/" "/" s)))) = inr r ->
     status_code r = 200%Z ->
     body r = None \/
     (exists v, body r = Some v /\
                forall props, Py.getitem v "properties" <> Ok props) ->
     exists e, grid_props net points_data = Raise e).
Proof.
  intros P. unfold grid_props. rewrite P. simpl.
  split; [| split; [| split]].
  - intros G. rewrite G. reflexivity.
  - intros s e G N. rewrite G. simpl. unfold requests_get. rewrite N.
    reflexivity.
  - intros s r G N S. rewrite G. simpl. unfold requests_get. rewrite N.
    simpl. apply Z.eqb_neq in S. rewrite S. reflexivity.
  - intros s r G N S B. rewrite G. simpl. unfold requests_get. rewrite N.
    simpl. rewrite S. simpl. unfold response_json.
    destruct B as [B | [v [B NP]]]; rewrite B; simpl; [eauto |].
    destruct (Py.getitem v "properties") as [props | e] eqn:GP; simpl;
      [| eauto].
    now elim (NP props).
Qed.

(** *** Visibility *)

Lemma series_first_present (props e : json) (name : string) :
  series_first props name = Ok e -> series_present props name = Ok true.
Proof.
  unfold series_first, series_present.
  destruct props; simpl; try discriminate.
  destruct (Py.lookup name d) as [a |]; simpl; [| discriminate].
  destruct a; simpl; try discriminate.
  destruct (Py.lookup "values" d0) as [b |]; simpl; [| discriminate].
  destruct b as [| | | [|] | [|] |]; simpl; try discriminate; reflexivity.
Qed.

Lemma falsy_value_default (props e c : json) (name : string) (default : Q) :
  series_first props name = Ok e ->
  Py.get e "value" JNull = Ok c ->
  Py.truthy c = false ->
  read_series props name default = Ok (Some default).
Proof.
  intros F G T. unfold read_series.
  rewrite (series_first_present _ _ _ F). simpl.
  unfold series_value. rewrite F. simpl. rewrite G. simpl. rewrite T.
  reflexivity.
Qed.

(** A visibility series whose first value is absent, null or otherwise
    false gives 10000 metres, whatever else the grid data holds, provided
    reading the humidity series does not raise. *)
Lemma visibility_falsy_value (props e c : json) (s : grid_vars) :
  (forall x, read_series props "relativeHumidity" 50 <> Raise x) ->
  series_first props "visibility" = Ok e ->
  Py.get e "value" JNull = Ok c ->
  Py.truthy c = false ->
  visibility (snd (extract_series props s)) = 10000 / 1609.34 /\
  ~ visibility (snd (extract_series props s)) == 10.0.
Proof.
  intros H F G T.
  assert (V : visibility (snd (extract_series props s)) = 10000 / 1609.34).
  { rewrite visibility_after, (falsy_value_default props e c _ 10000 F G T).
    destruct (read_series props "relativeHumidity" 50) as [o | x] eqn:R;
      [reflexivity | now elim (H x)]. }
  split; [exact V |]. rewrite V. intros E. vm_compute in E. discriminate E.
Qed.

(** The humidity and precipitation series fall back to their defaults in
    the same situation. *)
Example sibling_fallbacks :
  read_series (JDict [("relativeHumidity", series_of JNull)])
              "relativeHumidity" 50 = Ok (Some 50) /\
  read_series (JDict [("quantitativePrecipitation", series_of JNull)])
              "quantitativePrecipitation" 0 = Ok (Some 0).
Proof. split; reflexivity. Qed.

(** C3, on the code: with a visibility series whose
    first value is null, the visibility returned is 10000 metres converted
    to miles, which is not 10.0. *)
Theorem visibility_null_is_ten_kilometres :
  option_map Visibility (fst (get_weather_data net_visibility_null "Detroit"))
    = Some (10000 / 1609.34) /\
  ~ 10000 / 1609.34 == 10.0.
Proof.
  split; [reflexivity |]. intros H. vm_compute in H. discriminate H.
Qed.

(** *** Humidity *)

Lemma series_raw_inversion (props x : json) (name : string) :
  series_raw props name = Ok x ->
  exists e, series_first props name = Ok e /\
            Py.getitem e "value" = Ok x /\
            Py.get e "value" JNull = Ok x.
Proof.
  unfold series_raw. intros H.
  destruct (series_first props name) as [e |]; simpl in H; [| discriminate].
  exists e. repeat split; trivial.
  destruct e; simpl in *; try discriminate.
  destruct (Py.lookup "value" d); [exact H | discriminate].
Qed.

Lemma zero_is_falsy (q : Q) : q == 0 -> PyNum.nonzero q = false.
Proof.
  unfold Qeq, PyNum.nonzero. simpl. intros H.
  rewrite Z.mul_1_r in H. rewrite H. reflexivity.
Qed.

Lemma read_series_inversion (props : json) (name : string) (default x : Q) :
  read_series props name default = Ok (Some x) ->
  x = default \/
  exists v, series_raw props name = Ok v /\ Py.truthy v = true /\
            Py.float v = Ok x.
Proof.
  unfold read_series, series_value, series_raw. intros H.
  destruct (series_present props name) as [[|] |]; simpl in H;
    try discriminate.
  destruct (series_first props name) as [e |]; simpl in *; [| discriminate].
  destruct (Py.get e "value" JNull) as [c |] eqn:G; simpl in H;
    [| discriminate].
  destruct (Py.truthy c) eqn:T.
  - right. destruct (Py.getitem e "value") as [v |] eqn:GI; simpl in H;
      [| discriminate].
    exists v. split; [reflexivity |].
    destruct (Py.float v) as [y |] eqn:FV; [| discriminate].
    injection H as <-. split; [| reflexivity].
    destruct e; simpl in *; try discriminate.
    destruct (Py.lookup "value" d); [| discriminate].
    congruence.
  - left. now injection H.
Qed.

(** C10, as the code has it: when the first relative-humidity value of the grid
    data is the number 0 the observation has humidity 50; an observation
    has humidity 0 only when that value is a string that spells zero. *)
Theorem humidity_zero_is_default :
  forall (net : network) (city : string) (lat lon : Q)
         (points_data current props : json) (f : forecast_fields),
    Py.lookup (city_lower city) michigan_cities = Some (lat, lon) ->
    first_period net lat lon = Ok (inr (points_data, current)) ->
    extract_forecast current = Ok f ->
    grid_props net points_data = Ok (Some props) ->
    exists o,
      get_weather_data net city = (Some o, []) /\
      (forall q, series_raw props "relativeHumidity" = Ok (JNum q) ->
                 q == 0 -> Humidity o = 50) /\
      (Humidity o == 0 ->
       exists s x, series_raw props "relativeHumidity" = Ok (JStr s) /\
                   PyNum.float_of_string s = Some x /\ x == 0).
Proof.
  intros net city lat lon pd cur props f L F E G.
  exists (build city f (grid_enrichment net pd)).
  split; [now apply success_intro with lat lon cur |].
  simpl. rewrite grid_enrichment_props, G, humidity_after. split.
  - intros q R Z.
    destruct (series_raw_inversion _ _ _ R) as (e & SF & _ & GE).
    rewrite (falsy_value_default props e (JNum q) _ 50 SF GE); [reflexivity |].
    now apply zero_is_falsy.
  - destruct (read_series props "relativeHumidity" 50) as [[x |] |] eqn:R;
      try (intros H; vm_compute in H; discriminate H).
    intros Z. apply read_series_inversion in R.
    destruct R as [-> | (v & SR & T & FV)];
      [vm_compute in Z; discriminate Z |].
    destruct v; cbn [Py.float] in FV; try discriminate.
    + injection FV as FV. subst x. simpl in T. destruct b; [| discriminate].
      vm_compute in Z. discriminate Z.
    + destruct (PyNum.overflows q); [discriminate FV |].
      injection FV as FV. subst x. simpl in T.
      rewrite (zero_is_falsy _ Z) in T. discriminate.
    + destruct (PyNum.float_of_string s) as [y |] eqn:P; [| discriminate].
      injection FV as FV. subst y. now exists s, x.
Qed.

Lemma humidity_zero_is_default_witness :
  exists o,
    get_weather_data net_humidity_zero "Detroit" = (Some o, []) /\
    Humidity o = 50.
Proof.
  destruct (humidity_zero_is_default net_humidity_zero "Detroit"
              42.3314 (-83.0458) points_with_grid period_nw
              (JDict [("relativeHumidity", series_of (JNum 0))]) fields_nw)
    as (o & H1 & H2 & _).
  - reflexivity.
  - reflexivity.
  - reflexivity.
  - reflexivity.
  - exists o. split; [exact H1 |]. apply (H2 0); reflexivity.
Defined.

Lemma humidity_zero_counterexample :
  option_map Humidity
    (fst (get_weather_data net_humidity_zero_string "Detroit")) = Some 0.
Proof. reflexivity. Qed.

(** * Further properties of the code *)

(** ** Outcomes of the fetch *)

Lemma handler_one_error (e : exn) : exists m, handler e = (None, [st_error m]).
Proof. destruct e; simpl; eauto. Qed.

Lemma first_period_inl_shape (net : network) (lat lon : Q) (r : returned) :
  first_period net lat lon = Ok (inl r) ->
  exists m, r = (None, [st_error m]).
Proof.
  unfold first_period. intros H. unbind H; inversion H; eauto.
Qed.

(** X1: [get_weather_data] either returns an observation and writes nothing,
    or returns nothing and writes one error line, or, for an unknown city,
    returns nothing and writes the error line and the list of cities. *)
Theorem fetch_reports_every_failure :
  forall (net : network) (city : string),
    (exists o, get_weather_data net city = (Some o, [])) \/
    (exists m, get_weather_data net city = (None, [st_error m])) \/
    get_weather_data net city
      = (None, [st_error (city_not_found city); st_write available]).
Proof.
  intros net city. unfold get_weather_data.
  destruct (Py.lookup (city_lower city) michigan_cities) as [[lat lon] |];
    [| now right; right].
  unfold try_body.
  destruct (first_period net lat lon) as [[r | [pd cur]] | e] eqn:F; simpl.
  - right; left. now apply first_period_inl_shape in F.
  - destruct (extract_forecast cur) as [f | e]; simpl.
    + left. eauto.
    + right; left. apply handler_one_error.
  - right; left. apply handler_one_error.
Qed.

(** X2: an observation is returned exactly when the city is in the table,
    the two requests lead to a current period and the four forecast fields
    are extracted; it is then built from these fields and the grid values. *)
Theorem fetch_succeeds_iff :
  forall (net : network) (city : string) (o : observation),
    fst (get_weather_data net city) = Some o <->
    exists lat lon points_data current f,
      Py.lookup (city_lower city) michigan_cities = Some (lat, lon) /\
      first_period net lat lon = Ok (inr (points_data, current)) /\
      extract_forecast current = Ok f /\
      o = build city f (grid_enrichment net points_data).
Proof.
  intros net city o. split.
  - intros H.
    destruct (get_weather_data net city) as [r log] eqn:G. simpl in H.
    subst r. apply success_inversion in G.
    destruct G as (lat & lon & pd & cur & f & L & F & E & -> & _).
    now exists lat, lon, pd, cur, f.
  - intros (lat & lon & pd & cur & f & L & F & E & ->).
    now rewrite (success_intro net city lat lon pd cur f L F E).
Qed.

(** The fetch once the city is found. *)
Lemma found_city (net : network) (city : string) (lat lon : Q) :
  Py.lookup (city_lower city) michigan_cities = Some (lat, lon) ->
  get_weather_data net city =
    match try_body net city lat lon with
    | Ok r => r
    | Raise e => handler e
    end.
Proof. intros L. unfold get_weather_data. now rewrite L. Qed.

Lemma first_period_after_points (net : network) (lat lon : Q)
      (forecast_url : json) :
  points_answer net lat lon forecast_url ->
  exists points_data,
    first_period net lat lon =
      (forecast_response <- requests_get net (url_of forecast_url) ;;
       if negb (status_code forecast_response =? 200)%Z then
         Ok (inl (None,
                  [st_error (forecast_error (status_code forecast_response))]))
       else
         forecast_data <- response_json forecast_response ;;
         fp <- Py.getitem forecast_data "properties" ;;
         periods <- Py.getitem fp "periods" ;;
         current <- Py.getitem0 periods ;;
         Ok (inr (points_data, current))).
Proof.
  intros (r & pd & d & N & S & B & P & FU). exists pd.
  unfold first_period, requests_get at 1. rewrite N. simpl.
  rewrite S. simpl. unfold response_json at 1. rewrite B. simpl.
  rewrite P. simpl. rewrite FU. reflexivity.
Qed.

Lemma handler_request_error (e : request_error) :
  handler (exn_of_request_error e) = (None, [st_error (request_error_message e)]).
Proof. destruct e; reflexivity. Qed.

(** X3: when the points request or the forecast request raises, no
    observation is returned and the one error line is the time-out line, the
    connection line or the generic line, by the class of the exception. *)
Theorem request_errors_end_the_fetch :
  forall (net : network) (city : string) (lat lon : Q) (e : request_error),
    Py.lookup (city_lower city) michigan_cities = Some (lat, lon) ->
    (net (points_url lat lon) = inl e \/
     exists forecast_url,
       points_answer net lat lon forecast_url /\
       net (url_of forecast_url) = inl e) ->
    get_weather_data net city = (None, [st_error (request_error_message e)]).
Proof.
  intros net city lat lon e L H.
  rewrite (found_city net city lat lon L). unfold try_body.
  destruct H as [H | (fu & PA & H)].
  - unfold first_period, requests_get. rewrite H. simpl.
    apply handler_request_error.
  - destruct (first_period_after_points net lat lon fu PA) as [pd ->].
    unfold requests_get. rewrite H. simpl. apply handler_request_error.
Qed.

Lemma request_errors_end_the_fetch_witness :
  get_weather_data net_unreachable "Detroit"
    = (None, [st_error connection_error]).
Proof.
  apply (request_errors_end_the_fetch net_unreachable "Detroit"
           42.3314%Q (-83.0458)%Q ReqConnectionError).
  - reflexivity.
  - left. reflexivity.
Defined.

(** X4: a status other than 200 of the points response, or of the forecast
    response, ends the fetch with the error line that carries that status;
    the body of the response is not looked at. *)
Theorem status_checked_first :
  forall (net : network) (city : string) (lat lon : Q),
    Py.lookup (city_lower city) michigan_cities = Some (lat, lon) ->
    (forall r,
       net (points_url lat lon) = inr r -> status_code r <> 200%Z ->
       get_weather_data net city
         = (None, [st_error (location_error (status_code r))])) /\
    (forall forecast_url r,
       points_answer net lat lon forecast_url ->
       net (url_of forecast_url) = inr r -> status_code r <> 200%Z ->
       get_weather_data net city
         = (None, [st_error (forecast_error (status_code r))])).
Proof.
  intros net city lat lon L. rewrite (found_city net city lat lon L).
  unfold try_body. split.
  - intros r N S. unfold first_period, requests_get. rewrite N. simpl.
    apply Z.eqb_neq in S. rewrite S. reflexivity.
  - intros fu r PA N S.
    destruct (first_period_after_points net lat lon fu PA) as [pd ->].
    unfold requests_get. rewrite N. simpl.
    apply Z.eqb_neq in S. rewrite S. reflexivity.
Qed.

Lemma status_checked_first_witness :
  get_weather_data net_unavailable "Detroit"
    = (None, [st_error (location_error 503)]).
Proof.
  destruct (status_checked_first net_unavailable "Detroit"
              42.3314%Q (-83.0458)%Q) as [H _].
  - reflexivity.
  - apply (H (mkResponse 503 None)); [reflexivity | discriminate].
Defined.

(** X5: a points response with status 200 whose body is not JSON gives the
    generic error line; a JSON object without [properties], or whose
    properties have no [forecast], gives the missing-field line naming the
    key. *)
Theorem points_without_forecast_url :
  forall (net : network) (city : string) (lat lon : Q)
         (r : response) (d : list (string * json)),
    Py.lookup (city_lower city) michigan_cities = Some (lat, lon) ->
    net (points_url lat lon) = inr r -> status_code r = 200%Z ->
    (body r = None ->
     get_weather_data net city
       = (None, [st_error (fetch_error JSONDecodeError)])) /\
    (body r = Some (JDict d) -> Py.lookup "properties" d = None ->
     get_weather_data net city
       = (None, [st_error (missing_field (KStr "properties"))])) /\
    (forall d',
       body r = Some (JDict d) ->
       Py.lookup "properties" d = Some (JDict d') ->
       Py.lookup "forecast" d' = None ->
       get_weather_data net city
         = (None, [st_error (missing_field (KStr "forecast"))])).
Proof.
  intros net city lat lon r d L N S.
  rewrite (found_city net city lat lon L).
  unfold try_body, first_period, requests_get. rewrite N. simpl.
  rewrite S. simpl. unfold response_json.
  repeat split.
  - intros B. rewrite B. reflexivity.
  - intros B P. rewrite B. simpl. rewrite P. reflexivity.
  - intros d' B P F. rewrite B. simpl. rewrite P. simpl. rewrite F.
    reflexivity.
Qed.

Lemma points_without_forecast_url_witness :
  get_weather_data net_empty_object "Detroit"
    = (None, [st_error (missing_field (KStr "properties"))]).
Proof.
  destruct (points_without_forecast_url net_empty_object "Detroit"
              42.3314%Q (-83.0458)%Q (mkResponse 200 (Some (JDict []))) [])
    as (_ & H & _).
  - reflexivity.
  - reflexivity.
  - reflexivity.
  - apply H; reflexivity.
Defined.

(** X6: a forecast whose properties have no [periods] gives the
    missing-field line; an empty list of periods, or a null, gives the
    generic error line; no observation is returned.  The forecast body is
    any JSON object whose [properties] are an object. *)
Theorem forecast_without_period :
  forall (net : network) (city : string) (lat lon : Q)
         (forecast_url : json) (r : response)
         (b d : list (string * json)),
    Py.lookup (city_lower city) michigan_cities = Some (lat, lon) ->
    points_answer net lat lon forecast_url ->
    net (url_of forecast_url) = inr r -> status_code r = 200%Z ->
    body r = Some (JDict b) ->
    Py.lookup "properties" b = Some (JDict d) ->
    (Py.lookup "periods" d = None ->
     get_weather_data net city
       = (None, [st_error (missing_field (KStr "periods"))])) /\
    (Py.lookup "periods" d = Some (JList []) ->
     get_weather_data net city
       = (None, [st_error (fetch_error IndexError)])) /\
    (Py.lookup "periods" d = Some JNull ->
     get_weather_data net city
       = (None, [st_error (fetch_error TypeError)])).
Proof.
  intros net city lat lon fu r b d L PA N S B PR.
  rewrite (found_city net city lat lon L). unfold try_body.
  destruct (first_period_after_points net lat lon fu PA) as [pd ->].
  unfold requests_get. rewrite N. simpl. rewrite S. simpl.
  unfold response_json. rewrite B. simpl. rewrite PR. simpl.
  repeat split; intros P; rewrite P; reflexivity.
Qed.

Lemma forecast_without_period_witness :
  get_weather_data net_no_periods "Detroit"
    = (None, [st_error (fetch_error IndexError)]).
Proof.
  destruct (forecast_without_period net_no_periods "Detroit"
              42.3314%Q (-83.0458)%Q (JStr forecast_link)
              (mkResponse 200
                 (Some (JDict [("properties",
                                JDict [("periods", JList [])])])))
              [("properties", JDict [("periods", JList [])])]
              [("periods", JList [])])
    as (_ & H & _).
  - reflexivity.
  - exists (mkResponse 200 (Some points_without_grid)), points_without_grid,
      [("forecast", JStr forecast_link)].
    repeat split.
  - reflexivity.
  - reflexivity.
  - reflexivity.
  - reflexivity.
  - apply H. reflexivity.
Defined.

(** ** The forecast fields, continued *)

(** X7: the time of day of every observation is "Day" or "Night". *)
Theorem time_of_day_is_day_or_night :
  forall (net : network) (city : string) (o : observation) (log : list ui),
    get_weather_data net city = (Some o, log) ->
    Sunrise_Sunset o = "Day" \/ Sunrise_Sunset o = "Night".
Proof.
  intros net city o log H.
  destruct (success_inversion _ _ _ _ H)
    as (lat & lon & pd & cur & f & _ & _ & E & -> & _).
  destruct (extract_forecast_inversion _ _ E)
    as (t & w & d & i & _ & _ & _ & _ & _ & _ & _ & T).
  simpl. rewrite T. destruct (Py.truthy i); auto.
Qed.

Lemma time_of_day_is_day_or_night_witness :
  Sunrise_Sunset (build "  DETROIT  " fields_nw default_grid_vars) = "Day" \/
  Sunrise_Sunset (build "  DETROIT  " fields_nw default_grid_vars) = "Night".
Proof.
  apply (time_of_day_is_day_or_night net_end_to_end "  DETROIT  " _ []).
  reflexivity.
Defined.

Lemma digits_tail_digit (acc d : Z) (cnt : nat) (c : ascii) (s : string) :
  PyNum.digit_of c = Some d ->
  PyNum.digits_tail acc cnt (String c s)
  = PyNum.digits_tail (10 * acc + d)%Z (S cnt) s.
Proof. intros H. cbn [PyNum.digits_tail]. now rewrite H. Qed.

Lemma digits_tail_uint (d : Decimal.uint) (a cnt : nat) :
  exists cnt',
    PyNum.digits_tail (Z.of_nat a) cnt (NilEmpty.string_of_uint d)
    = (Z.of_nat (Nat.of_uint_acc d a), cnt', "").
Proof.
  revert a cnt.
  induction d; intros a cnt;
    cbn [NilEmpty.string_of_uint Nat.of_uint_acc];
    [eexists; reflexivity | ..];
    (erewrite digits_tail_digit by (vm_compute; reflexivity));
    match goal with
    | |- context [Nat.of_uint_acc _ ?a'] =>
        destruct (IHd a' (S cnt)) as [cnt' E]; exists cnt';
        rewrite <- E; f_equal; rewrite Nat.tail_mul_spec; lia
    end.
Qed.

Lemma digit_not_space (c : ascii) (d : Z) :
  PyNum.digit_of c = Some d -> PyStr.is_space c = false.
Proof.
  destruct c as [[] [] [] [] [] [] [] []]; vm_compute; intros H;
    first [discriminate H | reflexivity].
Qed.

Lemma uint_no_space (d : Decimal.uint) :
  no_space (NilEmpty.string_of_uint d) = true.
Proof. induction d; simpl; trivial. Qed.

Lemma to_uint_not_nil (n : nat) : Nat.to_uint n <> Decimal.Nil.
Proof.
  intros H. pose proof (Unsigned.of_to n) as O. rewrite H in O.
  simpl in O. subst n. vm_compute in H. discriminate H.
Qed.

Lemma digitpart_uint (d : Decimal.uint) :
  d <> Decimal.Nil ->
  exists c s cnt,
    NilEmpty.string_of_uint d = String c s /\
    (exists k, PyNum.digit_of c = Some k) /\
    PyNum.digitpart 0 (String c s)
    = Some (Z.of_nat (Nat.of_uint d), cnt, "").
Proof.
  intros N. destruct d; [contradiction | ..];
    cbn [NilEmpty.string_of_uint];
    match goal with
    | |- context [String ?c (NilEmpty.string_of_uint ?d')] =>
        match goal with
        | |- context [Nat.of_uint (?D d')] =>
            destruct (digits_tail_uint d' (Nat.of_uint (D Decimal.Nil)) 1)
              as [cnt E];
            exists c, (NilEmpty.string_of_uint d'), cnt;
            split; [reflexivity |];
            split; [eexists; vm_compute; reflexivity |];
            unfold PyNum.digitpart;
            let v := eval vm_compute in (PyNum.digit_of c) in
            change (PyNum.digit_of c) with v;
            cbv iota beta; f_equal; exact E
        end
    end.
Qed.

Lemma no_space_lstrip (s : string) : no_space s = true -> PyStr.lstrip s = s.
Proof.
  destruct s as [| c s]; simpl; [reflexivity |]. intros H.
  apply andb_true_iff in H. destruct H as [H _].
  apply negb_true_iff in H. now rewrite H.
Qed.

Lemma no_space_rstrip (s : string) : no_space s = true -> PyStr.rstrip s = s.
Proof.
  induction s as [| c s IH]; simpl; [reflexivity |]. intros H.
  apply andb_true_iff in H. destruct H as [H T].
  apply negb_true_iff in H. now rewrite H, (IH T).
Qed.

Lemma no_space_strip (s : string) : no_space s = true -> PyStr.strip s = s.
Proof.
  intros H. unfold PyStr.strip.
  now rewrite (no_space_lstrip s H), (no_space_rstrip s H).
Qed.

Lemma float_space_is_space (c : ascii) :
  PyNum.is_space c = true -> PyStr.is_space c = true.
Proof.
  destruct c as [[] [] [] [] [] [] [] []]; intros H;
    first [discriminate H | reflexivity].
Qed.

Lemma no_space_float_strip (s : string) :
  no_space s = true -> PyNum.strip s = s.
Proof.
  intros H. unfold PyNum.strip.
  assert (L : PyNum.lstrip s = s).
  { destruct s as [| c s]; [reflexivity |]. simpl in *.
    apply andb_true_iff in H. destruct H as [H _].
    apply negb_true_iff in H.
    destruct (PyNum.is_space c) eqn:E; [| reflexivity].
    apply float_space_is_space in E. congruence. }
  rewrite L. clear L.
  induction s as [| c s IH]; simpl in *; [reflexivity |].
  apply andb_true_iff in H. destruct H as [H T].
  apply negb_true_iff in H. rewrite (IH T).
  destruct (PyNum.is_space c) eqn:E; [| reflexivity].
  apply float_space_is_space in E. congruence.
Qed.

Lemma digit_first (c : ascii) (s : string) (k : Z) :
  PyNum.digit_of c = Some k ->
  PyNum.sign (String c s) = (false, String c s) /\
  PyNum.number (String c s) =
    match PyNum.digitpart 0 (String c s) with
    | Some (i, _, String "."%char r) =>
        match PyNum.digitpart i r with
        | Some res => Some res
        | None => Some (i, O, r)
        end
    | Some (i, _, r) => Some (i, O, r)
    | None => None
    end.
Proof.
  destruct c as [[] [] [] [] [] [] [] []]; intros H;
    first [discriminate H | split; reflexivity].
Qed.

Lemma float_of_decimal (n : nat) :
  PyNum.float_of_string (decimal n) = Some (inject_Z (Z.of_nat n)).
Proof.
  unfold PyNum.float_of_string, decimal.
  rewrite (no_space_float_strip _ (uint_no_space _)).
  destruct (digitpart_uint _ (to_uint_not_nil n))
    as (c & s & cnt & E & [k K] & D).
  rewrite E. destruct (digit_first c s k K) as [S N].
  rewrite S, N, D, Unsigned.of_to. cbn.
  unfold PyNum.scale10. cbn. rewrite Z.mul_1_r. reflexivity.
Qed.

(** X8: a wind speed written as a whole number of at most 2 ^ 53 in
    decimal, followed by white space and anything else (such as " mph"), is
    parsed as that number. *)
Theorem wind_speed_of_whole_number :
  forall (n : nat) (c : ascii) (rest : string),
    converts_exactly (inject_Z (Z.of_nat n)) ->
    PyStr.is_space c = true ->
    parse_wind_speed (JStr (decimal n ++ String c rest))
      = Ok (inject_Z (Z.of_nat n)).
Proof.
  intros n c rest _ C. unfold parse_wind_speed. simpl Py.split. cbn [bind].
  rewrite split_token; trivial.
  - cbn [Py.first bind Py.float]. now rewrite float_of_decimal.
  - apply uint_no_space.
  - unfold decimal. intros H.
    destruct (digitpart_uint _ (to_uint_not_nil n)) as (a & s & _ & E & _).
    rewrite E in H. discriminate H.
Qed.

Lemma wind_speed_of_whole_number_witness :
  parse_wind_speed (JStr (decimal 15 ++ String " " "mph"))
    = Ok (inject_Z (Z.of_nat 15)).
Proof.
  apply (wind_speed_of_whole_number 15 " " "mph").
  - unfold converts_exactly, Qle. simpl. lia.
  - reflexivity.
Defined.

Example decimal_15_mph : decimal 15 ++ " mph" = "15 mph".
Proof. reflexivity. Qed.

Lemma split_blank (s : string) : blank s = true -> PyStr.split s = [].
Proof.
  induction s as [| c s IH]; simpl; intros H; [reflexivity |].
  apply andb_true_iff in H. destruct H as [C B]. rewrite C. auto.
Qed.

(** X9: a wind speed that is an empty or blank string has no first token:
    the parse raises an index error, and the fetch ends with the generic
    error line although the field is present. *)
Theorem blank_wind_speed_fails :
  forall (net : network) (city : string) (lat lon : Q)
         (points_data : json) (d : list (string * json))
         (t : json) (x : Q) (s : string),
    blank s = true ->
    Py.lookup (city_lower city) michigan_cities = Some (lat, lon) ->
    first_period net lat lon = Ok (inr (points_data, JDict d)) ->
    Py.lookup "temperature" d = Some t -> Py.float t = Ok x ->
    Py.lookup "windSpeed" d = Some (JStr s) ->
    parse_wind_speed (JStr s) = Raise IndexError /\
    get_weather_data net city = (None, [st_error (fetch_error IndexError)]).
Proof.
  intros net city lat lon pd d t x s B L F T X W.
  assert (P : parse_wind_speed (JStr s) = Raise IndexError).
  { unfold parse_wind_speed. simpl. now rewrite (split_blank s B). }
  split; [exact P |].
  rewrite (failure_result net city lat lon pd (JDict d) IndexError L F);
    [reflexivity |].
  unfold extract_forecast. rewrite !getitem_dict, T. simpl.
  rewrite X. simpl. rewrite W. simpl. rewrite P. reflexivity.
Qed.

Lemma blank_wind_speed_fails_witness :
  parse_wind_speed (JStr "  ") = Raise IndexError /\
  get_weather_data net_blank_wind_speed "Detroit"
    = (None, [st_error (fetch_error IndexError)]).
Proof.
  apply (blank_wind_speed_fails net_blank_wind_speed "Detroit"
           42.3314%Q (-83.0458)%Q points_without_grid
           [("temperature", JNum 45); ("windSpeed", JStr "  ");
            ("windDirection", JStr "NW"); ("isDaytime", JBool true)]
           (JNum 45) 45%Q "  ");
    reflexivity.
Defined.

(** ** The city name, continued *)

Lemma lower_char_idempotent (c : ascii) :
  PyStr.lower_char (PyStr.lower_char c) = PyStr.lower_char c.
Proof. destruct c as [[] [] [] [] [] [] [] []]; reflexivity. Qed.

Lemma lower_char_space (c : ascii) :
  PyStr.is_space (PyStr.lower_char c) = PyStr.is_space c.
Proof. destruct c as [[] [] [] [] [] [] [] []]; reflexivity. Qed.

Lemma lower_idempotent (s : string) : PyStr.lower (PyStr.lower s) = PyStr.lower s.
Proof.
  induction s as [| c s IH]; simpl; [reflexivity |].
  now rewrite lower_char_idempotent, IH.
Qed.

Lemma lower_lstrip (s : string) :
  PyStr.lstrip (PyStr.lower s) = PyStr.lower (PyStr.lstrip s).
Proof.
  induction s as [| c s IH]; simpl; [reflexivity |].
  rewrite lower_char_space. destruct (PyStr.is_space c); [exact IH | reflexivity].
Qed.

Lemma lower_is_empty (s : string) :
  PyStr.is_empty (PyStr.lower s) = PyStr.is_empty s.
Proof. destruct s; reflexivity. Qed.

Lemma lower_rstrip (s : string) :
  PyStr.rstrip (PyStr.lower s) = PyStr.lower (PyStr.rstrip s).
Proof.
  induction s as [| c s IH]; simpl; [reflexivity |].
  rewrite IH, lower_char_space, lower_is_empty.
  destruct (PyStr.is_space c && PyStr.is_empty (PyStr.rstrip s)); reflexivity.
Qed.

Lemma lower_strip (s : string) :
  PyStr.strip (PyStr.lower s) = PyStr.lower (PyStr.strip s).
Proof. unfold PyStr.strip. now rewrite lower_lstrip, lower_rstrip. Qed.

Lemma rstrip_idempotent (s : string) :
  PyStr.rstrip (PyStr.rstrip s) = PyStr.rstrip s.
Proof.
  induction s as [| c s IH]; simpl; [reflexivity |].
  destruct (PyStr.is_space c && PyStr.is_empty (PyStr.rstrip s)) eqn:E;
    [reflexivity |].
  simpl. now rewrite IH, E.
Qed.

Lemma lstrip_head (s : string) :
  PyStr.starts_with_space (PyStr.lstrip s) = PyStr.is_empty (PyStr.lstrip s).
Proof.
  induction s as [| c s IH]; simpl; [reflexivity |].
  destruct (PyStr.is_space c) eqn:E; [exact IH |]. simpl. exact E.
Qed.

Lemma lstrip_rstrip (s : string) :
  PyStr.starts_with_space s = PyStr.is_empty s ->
  PyStr.lstrip (PyStr.rstrip s) = PyStr.rstrip s.
Proof.
  destruct s as [| c s]; [reflexivity |]. simpl. intros H.
  rewrite H. simpl. rewrite H. reflexivity.
Qed.

Lemma strip_idempotent (s : string) :
  PyStr.strip (PyStr.strip s) = PyStr.strip s.
Proof.
  unfold PyStr.strip.
  rewrite (lstrip_rstrip _ (lstrip_head s)). apply rstrip_idempotent.
Qed.

Lemma city_lower_idempotent (city : string) :
  city_lower (city_lower city) = city_lower city.
Proof.
  unfold city_lower.
  rewrite (lower_strip (PyStr.strip (PyStr.lower city))), strip_idempotent.
  now rewrite <- lower_strip, lower_idempotent.
Qed.

Lemma try_body_city (net : network) (c1 c2 : string) (lat lon : Q) :
  match try_body net c1 lat lon, try_body net c2 lat lon with
  | Ok (Some o1, l1), Ok (Some o2, l2) =>
      exists f g, o1 = build c1 f g /\ o2 = build c2 f g /\ l1 = l2
  | r1, r2 => r1 = r2
  end.
Proof.
  unfold try_body.
  destruct (first_period net lat lon) as [[[r l] | [pd cur]] | e] eqn:F; simpl.
  - apply first_period_inl in F. simpl in F. now subst r.
  - destruct (extract_forecast cur) as [f | e]; simpl; [| reflexivity].
    now exists f, (grid_enrichment net pd).
  - reflexivity.
Qed.

(** X10: normalising a city name twice is normalising it once, and two
    inputs with the same normal form get the same answer: both fail, or
    both give observations that differ in the [City] field only. *)
Theorem same_normal_form_same_weather :
  forall (net : network) (c1 c2 : string),
    city_lower c1 = city_lower c2 ->
    city_lower (city_lower c1) = city_lower c1 /\
    ((fst (get_weather_data net c1) = None /\
      fst (get_weather_data net c2) = None) \/
     (exists f g,
        get_weather_data net c1 = (Some (build c1 f g), []) /\
        get_weather_data net c2 = (Some (build c2 f g), []))).
Proof.
  intros net c1 c2 H. split; [apply city_lower_idempotent |].
  unfold get_weather_data. rewrite H.
  destruct (Py.lookup (city_lower c2) michigan_cities) as [[lat lon] |];
    [| now left].
  pose proof (try_body_city net c1 c2 lat lon) as T.
  destruct (try_body net c1 lat lon) as [[[o1 |] l1] | e1] eqn:T1.
  - destruct (try_body net c2 lat lon) as [[[o2 |] l2] | e2] eqn:T2;
      try discriminate T.
    destruct T as (f & g & -> & -> & ->).
    right. exists f, g.
    assert (l2 = []) as ->; [| now split].
    unfold try_body in T2.
    destruct (first_period net lat lon) as [[r | [pd cur]] | e] eqn:F;
      simpl in T2; try discriminate.
    + apply first_period_inl in F. injection T2 as ->. discriminate.
    + destruct (extract_forecast cur); simpl in T2; [| discriminate].
      now injection T2.
  - rewrite <- T. now left.
  - rewrite <- T. left. split; apply handler_none.
Qed.

Lemma same_normal_form_same_weather_witness :
  city_lower (city_lower "  DETROIT  ") = city_lower "  DETROIT  " /\
  ((fst (get_weather_data net_end_to_end "  DETROIT  ") = None /\
    fst (get_weather_data net_end_to_end "detroit") = None) \/
   (exists f g,
      get_weather_data net_end_to_end "  DETROIT  "
        = (Some (build "  DETROIT  " f g), []) /\
      get_weather_data net_end_to_end "detroit"
        = (Some (build "detroit" f g), []))).
Proof.
  apply (same_normal_form_same_weather net_end_to_end "  DETROIT  " "detroit").
  reflexivity.
Defined.

(** ** Wind chill, continued *)

Local Open Scope R_scope.

Lemma three_pow_016 : (Rpower 3 0.16) ^ 25 = 81.
Proof.
  assert (P : 0 < Rpower 3 0.16) by (unfold Rpower; apply exp_pos).
  rewrite <- (Rpower_pow 25 _ P), Rpower_mult.
  replace (0.16 * INR 25) with (INR 4) by (simpl; lra).
  rewrite Rpower_pow by lra. lra.
Qed.

Lemma three_pow_016_lower : 1.19 < Rpower 3 0.16.
Proof.
  assert (P : 0 < Rpower 3 0.16) by (unfold Rpower; apply exp_pos).
  pose proof three_pow_016 as E.
  apply Rnot_le_lt; intros H.
  assert (L : (Rpower 3 0.16) ^ 25 <= 1.19 ^ 25) by (apply pow_incr; lra).
  rewrite E in L.
  assert (B : (1.19 * 100) ^ 25 < 81 * 100 ^ 25).
  { replace (1.19 * 100) with (IZR 119) by lra.
    replace (81 * 100 ^ 25) with (IZR (81 * 100 ^ 25)).
    - apply Z_pow_lt_R. vm_compute. reflexivity.
    - change 25%Z with (Z.of_nat 25). rewrite mult_IZR, <- pow_IZR.
      reflexivity. }
  rewrite Rpow_mult_distr in B.
  assert (T : 0 < 100 ^ 25) by (apply pow_lt; lra).
  nra.
Qed.

Lemma Q2R_3 : Q2R 3 = 3. Proof. unfold Q2R; simpl; lra. Qed.
Lemma Q2R_50 : Q2R 50 = 50. Proof. unfold Q2R; simpl; lra. Qed.

Lemma windy_power (V : Q) : (3 < V)%Q -> 1.19 < Rpower (Q2R V) 0.16.
Proof.
  intros H. apply Qlt_Rlt in H. rewrite Q2R_3 in H.
  apply Rlt_le_trans with (Rpower 3 0.16); [exact three_pow_016_lower |].
  apply Rle_Rpower_l; lra.
Qed.

Lemma formula_below_temperature (t x : R) :
  t <= 50 -> 1.19 < x ->
  35.74 + 0.6215 * t - 35.75 * x + 0.4275 * t * x < t.
Proof. intros Ht Hx. nra. Qed.

Lemma wind_chill_below (T V : Q) :
  (T <= 50)%Q -> (3 < V)%Q -> wind_chill T V < Q2R T.
Proof.
  intros HT HV. rewrite (wind_chill_cold_windy T V HT HV).
  unfold wind_chill_formula.
  apply Qle_Rle in HT. rewrite Q2R_50 in HT.
  apply formula_below_temperature; [exact HT | now apply windy_power].
Qed.

Lemma wind_chill_le (T V : Q) : wind_chill T V <= Q2R T.
Proof.
  destruct (Qlt_le_dec 50 T) as [HT | HT].
  - rewrite wind_chill_otherwise; [lra |].
    intros [L _]. exact (Qlt_not_le _ _ HT L).
  - destruct (Qlt_le_dec 3 V) as [HV | HV].
    + left. now apply wind_chill_below.
    + rewrite wind_chill_otherwise; [lra |].
      intros [_ L]. exact (Qlt_not_le _ _ L HV).
Qed.

(** X11: for a finite temperature and a finite wind speed, in exact
    arithmetic, the wind chill never exceeds the temperature: it is
    strictly below it whenever the formula applies, and equal to it
    otherwise. *)
Theorem wind_chill_at_most_temperature :
  forall (T V : Q),
    wind_chill T V <= Q2R T /\
    ((T <= 50)%Q /\ (3 < V)%Q /\ wind_chill T V < Q2R T \/
     ~ ((T <= 50)%Q /\ (3 < V)%Q) /\ wind_chill T V = Q2R T).
Proof.
  intros T V. split; [apply wind_chill_le |].
  assert (O : ~ ((T <= 50)%Q /\ (3 < V)%Q) ->
              ~ ((T <= 50)%Q /\ (3 < V)%Q) /\ wind_chill T V = Q2R T)
    by (intros N; split; [exact N | now apply wind_chill_otherwise]).
  destruct (Qlt_le_dec 50 T) as [HT | HT].
  - right. apply O. intros [L _]. exact (Qlt_not_le _ _ HT L).
  - destruct (Qlt_le_dec 3 V) as [HV | HV].
    + left. repeat split; trivial. now apply wind_chill_below.
    + right. apply O. intros [_ L]. exact (Qlt_not_le _ _ L HV).
Qed.

(** X13: at a given wind speed, a higher temperature never gives a lower
    wind chill, also across the threshold of 50 degrees. *)
Theorem wind_chill_increases_with_temperature :
  forall (T1 T2 V : Q),
    (T1 <= T2)%Q -> wind_chill T1 V <= wind_chill T2 V.
Proof.
  intros T1 T2 V H. pose proof (Qle_Rle _ _ H) as HR.
  destruct (Qlt_le_dec 3 V) as [HV | HV].
  - destruct (Qlt_le_dec 50 T2) as [H2 | H2].
    + rewrite (wind_chill_otherwise T2 V);
        [| intros [L _]; exact (Qlt_not_le _ _ H2 L)].
      apply Rle_trans with (Q2R T1); [| exact HR].
      apply wind_chill_le.
    + assert (H1 : (T1 <= 50)%Q) by (eapply Qle_trans; eauto).
      rewrite (wind_chill_cold_windy T1 V H1 HV),
              (wind_chill_cold_windy T2 V H2 HV).
      unfold wind_chill_formula.
      pose proof (windy_power V HV). nra.
  - rewrite !wind_chill_otherwise; [exact HR | |];
      intros [_ L]; exact (Qlt_not_le _ _ L HV).
Qed.

Lemma wind_chill_increases_with_temperature_witness :
  wind_chill 45 10 <= wind_chill 60 10.
Proof.
  apply (wind_chill_increases_with_temperature 45 60 10).
  unfold Qle. simpl. lia.
Defined.

Local Close Scope R_scope.

(** ** The grid values, continued *)

Local Open Scope Q_scope.

Lemma truthy_value_read (props v : json) (name : string) (default x : Q) :
  series_raw props name = Ok v ->
  Py.truthy v = true ->
  Py.float v = Ok x ->
  read_series props name default = Ok (Some x).
Proof.
  intros R T F.
  destruct (series_raw_inversion _ _ _ R) as (e & SF & GI & GE).
  unfold read_series. rewrite (series_first_present _ _ _ SF). simpl.
  unfold series_value. rewrite SF. simpl. rewrite GE. simpl. rewrite T.
  simpl. rewrite GI. simpl. rewrite F. reflexivity.
Qed.

Lemma exact_no_overflow (q : Q) :
  converts_exactly q -> PyNum.overflows q = false.
Proof.
  intros [L U]. unfold PyNum.overflows. apply orb_false_iff. split.
  - destruct (Qle_bool PyNum.overflow_bound q) eqn:E; [| reflexivity].
    apply Qle_bool_iff in E. pose proof (Qle_trans _ _ _ E U) as C.
    vm_compute in C. now elim C.
  - destruct (Qle_bool q (- PyNum.overflow_bound)) eqn:E; [| reflexivity].
    apply Qle_bool_iff in E. pose proof (Qle_trans _ _ _ L E) as C.
    vm_compute in C. now elim C.
Qed.

Lemma number_read (props : json) (name : string) (default q : Q) :
  series_raw props name = Ok (JNum q) ->
  converts_exactly q ->
  read_series props name default
    = Ok (Some (if PyNum.nonzero q then q else default)).
Proof.
  intros R X. destruct (PyNum.nonzero q) eqn:N.
  - apply truthy_value_read with (JNum q); trivial.
    cbn [Py.float]. now rewrite (exact_no_overflow q X).
  - destruct (series_raw_inversion _ _ _ R) as (e & SF & _ & GE).
    now apply falsy_value_default with e (JNum q).
Qed.

Lemma falsy_is_zero (q : Q) : PyNum.nonzero q = false -> q == 0.
Proof.
  unfold PyNum.nonzero, Qeq. simpl. intros H.
  apply negb_false_iff, Z.eqb_eq in H. rewrite H. reflexivity.
Qed.

(** X14: a relative humidity given as a number other than 0, of a
    magnitude that converts exactly, is returned as it is; it is not checked
    against the range 0 to 100. *)
Theorem humidity_number_unchecked :
  forall (net : network) (city : string) (lat lon : Q)
         (points_data current props : json) (f : forecast_fields) (q : Q),
    Py.lookup (city_lower city) michigan_cities = Some (lat, lon) ->
    first_period net lat lon = Ok (inr (points_data, current)) ->
    extract_forecast current = Ok f ->
    grid_props net points_data = Ok (Some props) ->
    series_raw props "relativeHumidity" = Ok (JNum q) ->
    converts_exactly q ->
    ~ q == 0 ->
    exists o,
      get_weather_data net city = (Some o, []) /\ Humidity o = q.
Proof.
  intros net city lat lon pd cur props f q L F E G R X NZ.
  exists (build city f (grid_enrichment net pd)).
  split; [now apply success_intro with lat lon cur |].
  simpl. rewrite grid_enrichment_props, G, humidity_after.
  rewrite (number_read props _ 50 q R X).
  destruct (PyNum.nonzero q) eqn:N; [reflexivity |].
  elim NZ. now apply falsy_is_zero.
Qed.

Lemma humidity_number_unchecked_witness :
  exists o,
    get_weather_data net_grid_full "Detroit" = (Some o, []) /\
    Humidity o = 150.
Proof.
  apply (humidity_number_unchecked net_grid_full "Detroit"
           42.3314 (-83.0458) points_with_grid period_nw
              (JDict grid_series_full) fields_nw 150).
  - reflexivity.
  - reflexivity.
  - reflexivity.
  - reflexivity.
  - reflexivity.
  - unfold converts_exactly, Qle. simpl. lia.
  - intros Z. vm_compute in Z. discriminate Z.
Defined.

(** X15: when reading the humidity does not raise, a visibility given as
    a number of metres other than 0 is divided by 1609.34; the number 0 is
    taken as 10000 metres.  The number is of a magnitude that converts
    exactly. *)
Theorem visibility_metres_to_miles :
  forall (net : network) (city : string) (lat lon : Q)
         (points_data current props : json) (f : forecast_fields) (q : Q),
    Py.lookup (city_lower city) michigan_cities = Some (lat, lon) ->
    first_period net lat lon = Ok (inr (points_data, current)) ->
    extract_forecast current = Ok f ->
    grid_props net points_data = Ok (Some props) ->
    (forall e, read_series props "relativeHumidity" 50 <> Raise e) ->
    series_raw props "visibility" = Ok (JNum q) ->
    converts_exactly q ->
    exists o,
      get_weather_data net city = (Some o, []) /\
      (~ q == 0 -> Visibility o = q / 1609.34) /\
      (q == 0 -> Visibility o = 10000 / 1609.34).
Proof.
  intros net city lat lon pd cur props f q L F E G H R X.
  exists (build city f (grid_enrichment net pd)).
  split; [now apply success_intro with lat lon cur |].
  simpl. rewrite grid_enrichment_props, G, visibility_after.
  rewrite (number_read props _ 10000 q R X).
  destruct (read_series props "relativeHumidity" 50) as [o | e] eqn:RH;
    [| now elim (H e)].
  destruct (PyNum.nonzero q) eqn:N; split; trivial.
  - intros Z. rewrite (zero_is_falsy q Z) in N. discriminate.
  - intros NZ. elim NZ. now apply falsy_is_zero.
Qed.

Lemma visibility_metres_to_miles_witness :
  exists o,
    get_weather_data net_grid_full "Detroit" = (Some o, []) /\
    Visibility o = 16093.4 / 1609.34.
Proof.
  destruct (visibility_metres_to_miles net_grid_full "Detroit"
              42.3314 (-83.0458) points_with_grid period_nw
              (JDict grid_series_full) fields_nw 16093.4)
    as (o & H1 & H2 & _).
  - reflexivity.
  - reflexivity.
  - reflexivity.
  - reflexivity.
  - intros e H. vm_compute in H. discriminate H.
  - reflexivity.
  - unfold converts_exactly, Qle. simpl. lia.
  - exists o. split; [exact H1 |]. apply H2.
    intros Z. vm_compute in Z. discriminate Z.
Defined.

(** X16: when reading the humidity and the visibility does not raise, a
    precipitation given as a number of millimetres is divided by 25.4, the
    number 0 included.  The number is of a magnitude that converts
    exactly. *)
Theorem precipitation_millimetres_to_inches :
  forall (net : network) (city : string) (lat lon : Q)
         (points_data current props : json) (f : forecast_fields) (q : Q),
    Py.lookup (city_lower city) michigan_cities = Some (lat, lon) ->
    first_period net lat lon = Ok (inr (points_data, current)) ->
    extract_forecast current = Ok f ->
    grid_props net points_data = Ok (Some props) ->
    (forall e, read_series props "relativeHumidity" 50 <> Raise e) ->
    (forall e, read_series props "visibility" 10000 <> Raise e) ->
    series_raw props "quantitativePrecipitation" = Ok (JNum q) ->
    converts_exactly q ->
    exists o,
      get_weather_data net city = (Some o, []) /\
      Precipitation o == q / 25.4.
Proof.
  intros net city lat lon pd cur props f q L F E G H1 H2 R X.
  exists (build city f (grid_enrichment net pd)).
  split; [now apply success_intro with lat lon cur |].
  simpl. rewrite grid_enrichment_props, G, precipitation_after.
  rewrite (number_read props _ 0 q R X).
  destruct (read_series props "relativeHumidity" 50) as [o1 | e] eqn:RH;
    [| now elim (H1 e)].
  destruct (read_series props "visibility" 10000) as [o2 | e] eqn:RV;
    [| now elim (H2 e)].
  destruct (PyNum.nonzero q) eqn:N.
  - rewrite N. reflexivity.
  - change (PyNum.nonzero 0) with false. cbv iota.
    rewrite (falsy_is_zero q N). reflexivity.
Qed.

Lemma precipitation_millimetres_to_inches_witness :
  exists o,
    get_weather_data net_grid_full "Detroit" = (Some o, []) /\
    Precipitation o == 2.54 / 25.4.
Proof.
  apply (precipitation_millimetres_to_inches net_grid_full "Detroit"
           42.3314 (-83.0458) points_with_grid period_nw
              (JDict grid_series_full) fields_nw 2.54).
  - reflexivity.
  - reflexivity.
  - reflexivity.
  - reflexivity.
  - intros e H. vm_compute in H. discriminate H.
  - intros e H. vm_compute in H. discriminate H.
  - reflexivity.
  - unfold converts_exactly, Qle. simpl. lia.
Defined.

Lemma replace_absent (old new s : string) :
  PyStr.contains old s = false -> PyStr.replace old new s = s.
Proof.
  unfold PyStr.replace. induction s as [| c s IH]; [reflexivity |].
  cbn [PyStr.contains PyStr.replace_from]. intros H.
  apply orb_false_iff in H. destruct H as [P C].
  rewrite P, (IH C). reflexivity.
Qed.

(** X17: a grid URL that contains neither "/wfo/" nor "/grid/" is
    requested as it is: the outcome of the grid request is the answer of
    the network at that URL. *)
Theorem plain_grid_url_requested_as_is :
  forall (net : network) (points_data : json) (d : list (string * json))
         (s : string),
    Py.getitem points_data "properties" = Ok (JDict d) ->
    Py.lookup "gridpoints" d = Some (JStr s) ->
    PyStr.contains "/wfo/" s = false ->
    PyStr.contains "/grid/" s = false ->
    grid_props net points_data =
      match net (url_of (JStr s)) with
      | inl e => Raise (exn_of_request_error e)
      | inr r =>
          if (status_code r =? 200)%Z then
            grid_data <- response_json r ;;
            props <- Py.getitem grid_data "properties" ;;
            Ok (Some props)
          else Ok None
      end.
Proof.
  intros net pd d s P G W Gr.
  unfold grid_props. rewrite P. simpl. rewrite G. simpl.
  rewrite (replace_absent _ _ _ W), (replace_absent _ _ _ Gr).
  unfold requests_get. destruct (net (url_of (JStr s))); reflexivity.
Qed.

Lemma plain_grid_url_requested_as_is_witness :
  grid_props net_unavailable points_plain_grid = Ok None.
Proof.
  apply (plain_grid_url_requested_as_is net_unavailable points_plain_grid
           [("forecast", JStr forecast_link); ("gridpoints", JStr grid_link)]
           grid_link);
    reflexivity.
Defined.

Local Close Scope Q_scope.

(** ** The risk display *)

(** X18: the circle and the advice agree for the predictions "High",
    "Medium" and "Low"; for any other prediction the circle is the white
    one and the advice is that of a low risk. *)
Theorem circle_and_advice :
  forall prediction : string,
    (prediction = "High" /\ risk_circle prediction = red /\
     recommendation prediction = high_risk) \/
    (prediction = "Medium" /\ risk_circle prediction = yellow /\
     recommendation prediction = moderate_risk) \/
    (prediction = "Low" /\ risk_circle prediction = green /\
     recommendation prediction = low_risk) \/
    (~ In prediction ["High"; "Medium"; "Low"] /\
     risk_circle prediction = white /\
     recommendation prediction = low_risk).
Proof.
  intros p. unfold risk_circle, recommendation, risk_colors. simpl.
  destruct (String.eqb_spec p "Low") as [-> | L];
    [right; right; left; repeat split |].
  destruct (String.eqb_spec p "Medium") as [-> | M];
    [right; left; repeat split |].
  destruct (String.eqb_spec p "High") as [-> | H];
    [left; repeat split |].
  right; right; right. repeat split. intros [E | [E | [E | []]]]; congruence.
Qed.

Lemma lookup_In {A : Type} (k : string) (v : A) (d : list (string * A)) :
  Py.lookup k d = Some v -> In (k, v) d.
Proof.
  induction d as [| [k' v'] d IH]; simpl; [discriminate |].
  destruct (String.eqb_spec k k') as [-> | N].
  - intros H. injection H as ->. now left.
  - intros H. right. now apply IH.
Qed.

Lemma lookup_known {A : Type} (k : string) (d : list (string * A)) :
  match Py.lookup k d with Some _ => true | None => false end
  = existsb (String.eqb k) (map fst d).
Proof.
  induction d as [| [k' v] d IH]; simpl; [reflexivity |].
  destruct (String.eqb k k'); [reflexivity | exact IH].
Qed.

Lemma known_rev {A : Type} (k : string) (d : list (string * A)) :
  existsb (String.eqb k) (map fst (rev d))
  = existsb (String.eqb k) (map fst d).
Proof.
  apply eq_iff_eq_true. rewrite !existsb_exists.
  split; intros [x [I E]]; exists x; split; trivial;
    rewrite map_rev in *; [now apply in_rev | now apply -> in_rev].
Qed.

Lemma bar_names (d : list (string * Q)) :
  map fst (confidence_bars d)
  = filter (fun l => existsb (String.eqb l) (map fst d))
           ["High"; "Medium"; "Low"].
Proof.
  unfold confidence_bars. cbn [filter flat_map].
  rewrite <- !lookup_known.
  destruct (Py.lookup "High" d), (Py.lookup "Medium" d), (Py.lookup "Low" d);
    reflexivity.
Qed.

Lemma bar_values (d : list (string * Q)) (l : string) (p : Q) :
  In (l, p) (confidence_bars d) -> Py.lookup l d = Some p.
Proof.
  unfold confidence_bars. simpl.
  destruct (Py.lookup "High" d) eqn:H, (Py.lookup "Medium" d) eqn:M,
           (Py.lookup "Low" d) eqn:L; simpl; intuition congruence.
Qed.

(** X19: the confidence bars come in the order High, Medium, Low whatever
    the order of the classes of the model, one for each of the three levels
    the model knows, and each bar shows a probability paired with its
    class. *)
Theorem bars_in_fixed_order :
  forall (class_names : list string) (probabilities : list Q),
    map fst (confidence_bars (prob_dict class_names probabilities))
      = filter (fun l => existsb (String.eqb l)
                           (map fst (combine class_names probabilities)))
               ["High"; "Medium"; "Low"] /\
    (forall l p,
       In (l, p) (confidence_bars (prob_dict class_names probabilities)) ->
       In (l, p) (combine class_names probabilities)).
Proof.
  intros cs ps. split.
  - rewrite bar_names. unfold prob_dict.
    apply filter_ext. intros l. apply known_rev.
  - intros l p I. apply bar_values, lookup_In in I.
    unfold prob_dict in I. now apply in_rev.
Qed.

Example bars_example :
  confidence_bars (prob_dict ["High"; "Low"; "Medium"] [0.1; 0.7; 0.2]%Q)
  = [("High", 0.1); ("Medium", 0.2); ("Low", 0.7)]%Q.
Proof. reflexivity. Qed.
